(** * ga-extractor: the [migrate] pipeline of [ga_extractor/extractor.py]

    A shallow embedding of the three helpers behind the [migrate] command:
    [_migrate_date_ranges], [__migrate_extract] and [__migrate_transform].

    The Python code is dynamically typed and reads its input through
    subscripts ([row[0]], [row["dimensions"][1]], ...), so the embedding
    keeps a small universe of Python values and an exception monad: every
    subscript, unpacking and arithmetic step of the source is a fallible
    operation here, raising what Python raises. *)

From Stdlib Require Import ZArith List String Ascii Bool Lia DecimalString FinFun.
Import ListNotations.
Local Open Scope Z_scope.
Set Warnings "-register-all".

(** ** Python values and exceptions *)

Module Py.

(** Keys of a [dict]: the integers and strings the code subscripts with. *)
Inductive key : Type :=
| KInt (z : Z)
| KStr (s : string).

(** The values of the model: [None], integers, strings, lists and dicts,
    with [dict] as an association list in insertion order. Floats and
    booleans are not among them; what is stated below about metrics names
    the kind of value it is about. A string holds the UTF-8 bytes of a
    Python string. *)
Inductive val : Type :=
| VNone
| VInt (z : Z)
| VStr (s : string)
| VList (l : list val)
| VDict (d : list (key * val)).

Inductive exn : Type :=
| TypeError
| KeyError
| IndexError
| ValueError
| ZeroDivisionError.

Inductive result (A : Type) : Type :=
| Ok (a : A)
| Raise (e : exn).

Arguments Ok {A} a.
Arguments Raise {A} e.

Definition bind {A B : Type} (r : result A) (k : A -> result B) : result B :=
  match r with
  | Ok a => k a
  | Raise e => Raise e
  end.

Definition key_eqb (a b : key) : bool :=
  match a, b with
  | KInt x, KInt y => x =? y
  | KStr x, KStr y => String.eqb x y
  | _, _ => false
  end.

(** [d[k]] on a dict given as its item list. *)
Fixpoint lookup {A : Type} (k : key) (d : list (key * A)) : option A :=
  match d with
  | [] => None
  | (k', v) :: d' => if key_eqb k k' then Some v else lookup k d'
  end.

(** [d[k] = v]: an existing key keeps its position, a new one goes last. *)
Fixpoint setitem {A : Type} (k : key) (v : A) (d : list (key * A)) : list (key * A) :=
  match d with
  | [] => [(k, v)]
  | (k', v') :: d' =>
      if key_eqb k k' then (k', v) :: d' else (k', v') :: setitem k v d'
  end.

Definition of_option {A : Type} (e : exn) (o : option A) : result A :=
  match o with
  | Some a => Ok a
  | None => Raise e
  end.

(** Sequence indexing with Python's negative indices. *)
Definition index {A : Type} (l : list A) (i : Z) : option A :=
  let n := Z.of_nat (List.length l) in
  if 0 <=? i then nth_error l (Z.to_nat i)
  else if 0 <=? n + i then nth_error l (Z.to_nat (n + i))
  else None.

(** A byte [10xxxxxx], which continues a code point of UTF-8. *)
Definition continuation (c : ascii) : bool :=
  let n := nat_of_ascii c in (128 <=? n)%nat && (n <? 192)%nat.

(** The code points of a list of bytes, each with its continuation
    bytes; the first component holds continuation bytes met before any
    leading byte. *)
Fixpoint code_points (cs : list ascii) : string * list string :=
  match cs with
  | [] => (EmptyString, [])
  | c :: cs' =>
      let (tail, points) := code_points cs' in
      if continuation c then (String c tail, points)
      else (EmptyString, String c tail :: points)
  end.

(** The characters of a string as Python indexes and iterates them: one
    per code point. *)
Definition chars (s : string) : list val :=
  let (lead, points) := code_points (list_ascii_of_string s) in
  map VStr (match lead with
            | EmptyString => points
            | String _ _ => lead :: points
            end).

(** [v[i]] for an integer [i]. *)
Definition getitem_int (v : val) (i : Z) : result val :=
  match v with
  | VList l => of_option IndexError (index l i)
  | VStr s => of_option IndexError (index (chars s) i)
  | VDict d => of_option KeyError (lookup (KInt i) d)
  | VInt _ | VNone => Raise TypeError
  end.

(** [v[k]] for a string [k]: only a dict accepts it. *)
Definition getitem_str (v : val) (k : string) : result val :=
  match v with
  | VDict d => of_option KeyError (lookup (KStr k) d)
  | VList _ | VStr _ | VInt _ | VNone => Raise TypeError
  end.

Definition val_of_key (k : key) : val :=
  match k with
  | KInt z => VInt z
  | KStr s => VStr s
  end.

(** The items [iter(v)] yields, for the unpacking [a, b = v]. *)
Definition iter (v : val) : result (list val) :=
  match v with
  | VList l => Ok l
  | VStr s => Ok (chars s)
  | VDict d => Ok (map (fun kv => val_of_key (fst kv)) d)
  | VInt _ | VNone => Raise TypeError
  end.

Definition unpack2 (v : val) : result (val * val) :=
  bind (iter v) (fun items =>
    match items with
    | [a; b] => Ok (a, b)
    | _ => Raise ValueError
    end).

(** [max(v, 1)]: keeps [v] unless [1 > v]; an integer is only ordered
    against an integer. *)
Definition max1 (v : val) : result Z :=
  match v with
  | VInt z => Ok (if 1 >? z then 1 else z)
  | _ => Raise TypeError
  end.

(** [v // n], [v % n] and [v - n] for an integer [n] and an integer [v]:
    floor division and the remainder with the sign of the divisor, as
    [Z.div] and [Z.modulo]. No other kind of [v] supports [//] or [-]
    with an integer. The transform evaluates [v % n] and [v - n] only
    once [v // n] has accepted the same [v], so their other cases,
    given here as TypeError, are never reached. *)
Definition floordiv (v : val) (n : Z) : result Z :=
  match v with
  | VInt z => if n =? 0 then Raise ZeroDivisionError else Ok (z / n)
  | _ => Raise TypeError
  end.

Definition modulo (v : val) (n : Z) : result Z :=
  match v with
  | VInt z => if n =? 0 then Raise ZeroDivisionError else Ok (z mod n)
  | _ => Raise TypeError
  end.

Definition sub (v : val) (n : Z) : result Z :=
  match v with
  | VInt z => Ok (z - n)
  | _ => Raise TypeError
  end.

(** [f"{n}"] for an integer. *)
Definition str_of_int (n : Z) : string := NilZero.string_of_int (Z.to_int n).

(** [f"{k}"] for a dict key. *)
Definition format_key (k : key) : string :=
  match k with
  | KInt z => str_of_int z
  | KStr s => s
  end.

(** [for i in range(n): st = body(st)], stopping at the first exception. *)
Fixpoint for_range {S : Type} (n : nat) (body : S -> result S) (st : S) : result S :=
  match n with
  | O => Ok st
  | Datatypes.S k => bind (body st) (for_range k body)
  end.

(** [for x in xs: st = body(x, st)]. *)
Fixpoint for_each {A S : Type} (xs : list A) (body : A -> S -> result S) (st : S) : result S :=
  match xs with
  | [] => Ok st
  | x :: xs' => bind (body x st) (for_each xs' body)
  end.

(** [range(n)] runs [max(n, 0)] times. *)
Definition range (n : Z) : nat := Z.to_nat n.

End Py.

Import Py.

Declare Scope py_scope.
Notation "x <- e ;; k" := (bind e (fun x => k))
  (at level 61, e at next level, right associativity) : py_scope.
Notation "' p <- e ;; k" := (bind e (fun x => match x with p => k end))
  (at level 61, p pattern, e at next level, right associativity) : py_scope.
Local Open Scope py_scope.

(** ** The records of the target schema (the two [NamedTuple] classes) *)

Module Session.
Record t : Type := mk {
  session_id : Z;
  session_uuid : N;
  website_id : Z;
  created_at : string;
  hostname : string;
  browser : val;
  os : val;
  device : val;
  screen : val;
  language : val;
  country : val
}.
End Session.

Module PageView.
Record t : Type := mk {
  id : Z;
  website_id : Z;
  session_id : Z;
  created_at : string;
  url : val
}.
End PageView.

(** What [sql_inserts] holds: the two record kinds, and the plain string
    appended after the loop. *)
Inductive entry : Type :=
| ESession (s : Session.t)
| EPageView (p : PageView.t)
| EStr (s : string).

(** ** [__migrate_transform] *)

(** The variables the loops of [__migrate_transform] update, together with
    the number of [uuid.uuid4()] draws made so far. *)
Record locals : Type := mkLocals {
  page_view_id : Z;
  session_id : Z;
  sql_inserts : list entry;
  uuid_calls : nat
}.

(** The branch of the [if] / [elif] / [else] chain a row takes, named
    after the comment on each branch. *)
Inductive policy : Type :=
| OneEach        (* One page view for each session *)
| SplitEqually   (* Split equally *)
| RestToLast.    (* One page view for each, rest for the last session *)

Section Transform.

(** [uuid4 k] is the value of the [k]-th call of [uuid.uuid4()] (as the
    128-bit integer of the UUID). *)
Variable uuid4 : nat -> N.

Definition website_id : Z := 1.
Definition hostname : string := "localhost".

(** [row["dimensions"][k]] *)
Definition dimensions (row : val) (k : Z) : result val :=
  d <- getitem_str row "dimensions" ;;
  getitem_int d k.

(** [Session(session_uuid=uuid.uuid4(), session_id=session_id, ...)] *)
Definition new_session (row : val) (timestamp : string) (st : locals)
  : result Session.t :=
  let u := uuid4 (uuid_calls st) in
  b <- dimensions row 1 ;;
  o <- dimensions row 2 ;;
  d <- dimensions row 3 ;;
  sc <- dimensions row 4 ;;
  l <- dimensions row 5 ;;
  c <- dimensions row 6 ;;
  Ok (Session.mk (session_id st) u website_id timestamp hostname b o d sc l c).

(** [PageView(id=page_view_id, website_id=website_id, session_id=sid, ...)] *)
Definition new_page_view (row : val) (timestamp : string) (sid : Z) (st : locals)
  : result PageView.t :=
  u <- dimensions row 0 ;;
  Ok (PageView.mk (page_view_id st) website_id sid timestamp u).

(** Body of the loops at lines 310-317 and 331-338: a session and its
    first page view, then both counters advance. *)
Definition session_and_view (row : val) (timestamp : string) (st : locals)
  : result locals :=
  s <- new_session row timestamp st ;;
  p <- new_page_view row timestamp (session_id st) st ;;
  Ok (mkLocals (page_view_id st + 1) (session_id st + 1)
        (sql_inserts st ++ [ESession s; EPageView p]) (S (uuid_calls st))).

(** Body of the loops at lines 325-328 and 340-343: one page view for the
    session [sid]. *)
Definition view_only (row : val) (timestamp : string) (sid : Z) (st : locals)
  : result locals :=
  p <- new_page_view row timestamp sid st ;;
  Ok (mkLocals (page_view_id st + 1) (session_id st)
        (sql_inserts st ++ [EPageView p]) (uuid_calls st)).

(** Body of the loop at lines 320-329: a session, then
    [page_views // sessions] page views of it. *)
Definition session_with_views (row : val) (timestamp : string)
    (page_views : val) (sessions : Z) (st : locals) : result locals :=
  s <- new_session row timestamp st ;;
  let st1 := mkLocals (page_view_id st) (session_id st)
               (sql_inserts st ++ [ESession s]) (S (uuid_calls st)) in
  n <- floordiv page_views sessions ;;
  st2 <- for_range (range n) (view_only row timestamp (session_id st1)) st1 ;;
  Ok (mkLocals (page_view_id st2) (session_id st2 + 1)
        (sql_inserts st2) (uuid_calls st2)).

(** The tests of lines 309 and 319, in that order. *)
Definition select_policy (page_views : val) (sessions : Z) : result policy :=
  q <- floordiv page_views sessions ;;
  if q =? 1 then Ok OneEach
  else
    r <- modulo page_views sessions ;;
    if r =? 0 then Ok SplitEqually else Ok RestToLast.

(** [page_views, sessions = row[0]["metrics"][0]["values"]] *)
Definition metrics (row : val) : result (val * val) :=
  r0 <- getitem_int row 0 ;;
  m <- getitem_str r0 "metrics" ;;
  m0 <- getitem_int m 0 ;;
  vs <- getitem_str m0 "values" ;;
  unpack2 vs.

(** One iteration of [for day, row in rows.items()] (lines 305-343). *)
Definition transform_item (item : key * val) (st : locals) : result locals :=
  let (day, row) := item in
  let timestamp := (format_key day ++ " 00:00:00.000+00")%string in
  '(page_views, sessions0) <- metrics row ;;
  sessions <- max1 sessions0 ;;
  pol <- select_policy page_views sessions ;;
  match pol with
  | OneEach =>
      for_range (range sessions) (session_and_view row timestamp) st
  | SplitEqually =>
      for_range (range sessions)
        (session_with_views row timestamp page_views sessions) st
  | RestToLast =>
      st1 <- for_range (range sessions) (session_and_view row timestamp) st ;;
      let last_session_id := session_id st1 - 1 in
      n <- sub page_views sessions ;;
      for_range (range n) (view_only row timestamp last_session_id) st1
  end.

(** The single string built by the two adjacent f-strings of lines
    346-347 (no comma separates them). *)
Definition setval_statements (pv sid : Z) : string :=
  ("SELECT pg_catalog.setval('public.pageview_view_id_seq', "
     ++ str_of_int pv ++ ", true);"
     ++ "SELECT pg_catalog.setval('public.session_session_id_seq', "
     ++ str_of_int sid ++ ", true);")%string.

Definition initial : locals := mkLocals 1 1 [] O.

(** [rows] is the dict handed over by [__migrate_extract], as the list
    [rows.items()] iterates over. *)
Definition __migrate_transform (rows : list (key * val)) : result (list entry) :=
  st <- for_each rows transform_item initial ;;
  Ok (sql_inserts st ++ [EStr (setval_statements (page_view_id st) (session_id st))]).

End Transform.

(** ** Sample inputs *)

Module Sample.

Definition dims : val :=
  VList [VStr "/blog/29"; VStr "Opera"; VStr "Windows"; VStr "desktop";
         VStr "2520x1320"; VStr "de-de"; VStr "Germany"].

(** A report row as the reporting API returns it (line 291), with the
    metric values as integers. *)
Definition api_row (v s : Z) : val :=
  VDict [(KStr "dimensions", dims);
         (KStr "metrics", VList [VDict [(KStr "values", VList [VInt v; VInt s])]])].

(** A day's value that answers both [row[0]] and [row["dimensions"]]. *)
Definition day_value (v s : Z) : val :=
  VDict [(KInt 0, api_row v s); (KStr "dimensions", dims)].

(** Two report rows of one day, as the list [__migrate_extract] stores
    and as a dict that also answers [row["dimensions"]]. *)
Definition two_rows_list : val :=
  VList [api_row 1 1; api_row 2 1].

Definition two_rows_dict : val :=
  VDict [(KInt 0, api_row 1 1); (KInt 1, api_row 2 1);
         (KStr "dimensions", dims)].

Definition uuid4 (k : nat) : N := N.of_nat k.

End Sample.

(** ** [_migrate_date_ranges] and [__migrate_extract] *)

(** One element of [date_ranges]: [{"startDate": ..., "endDate": ...}]. *)
Record date_range : Type := mkRange {
  startDate : string;
  endDate : string
}.

(** The request body sent by [batchGet]: the fixed part built at lines
    230-235 and the [dateRanges] entry set at line 240. *)
Record request : Type := mkRequest {
  viewId : string;
  req_dimensions : list string;
  req_metrics : list string;
  dateRanges : list date_range
}.

(** The variables of [__migrate_extract]'s loop, with the requests the
    reporting service has received so far. *)
Record fetched : Type := mkFetched {
  rows : list (key * val);
  sent : list request
}.

Section Aggregate.

(** The [datetime] library and the reporting service are outside the
    repository. A date is its day number; [strptime s] is
    [datetime.strptime(s, '%Y-%m-%d')] ([None] where it raises
    ValueError), [strftime d] is [f"{d:%Y-%m-%d}"], adding
    [timedelta(days=d)] adds [d] to the day number (the sums formed stay
    between the two parsed dates, so within what [datetime] holds), and
    [batchGet body] is [service.reports().batchGet(body=body).execute()]. *)
Variable strptime : string -> option Z.
Variable strftime : Z -> string.
Variable batchGet : request -> result val.

Definition _migrate_date_ranges (start_date end_date : string)
  : result (list date_range) :=
  start_date <- of_option ValueError (strptime start_date) ;;
  end_date <- of_option ValueError (strptime end_date) ;;
  Ok (map (fun d => mkRange (strftime (start_date + Z.of_nat d))
                            (strftime (start_date + Z.of_nat d)))
          (seq 0 (range ((end_date - start_date) + 1)))).

Definition extract_dimensions : list string :=
  ["ga:pagePath"; "ga:browser"; "ga:operatingSystem"; "ga:deviceCategory";
   "ga:browserSize"; "ga:language"; "ga:country"]%string.

Definition extract_metrics : list string :=
  ["ga:pageviews"; "ga:sessions"]%string.

(** [body] once [body["reportRequests"][0]["dateRanges"] = [r]] is done. *)
Definition body_for (table_id : Z) (r : date_range) : request :=
  mkRequest (str_of_int table_id) extract_dimensions extract_metrics [r].

(** [response["reports"][0]["data"]["rows"]] *)
Definition response_rows (response : val) : result val :=
  reports <- getitem_str response "reports" ;;
  report <- getitem_int reports 0 ;;
  data <- getitem_str report "data" ;;
  getitem_str data "rows".

(** One iteration of [for r in date_ranges] (lines 238-243). *)
Definition fetch_range (table_id : Z) (r : date_range) (st : fetched)
  : result fetched :=
  let body := body_for table_id r in
  response <- batchGet body ;;
  day_rows <- response_rows response ;;
  Ok (mkFetched (setitem (KStr (startDate r)) day_rows (rows st))
                (sent st ++ [body])).

(** [__migrate_extract], run to the final values of its variables. *)
Definition extract_run (table_id : Z) (date_ranges : list date_range)
  : result fetched :=
  for_each date_ranges (fetch_range table_id) (mkFetched [] []).

Definition __migrate_extract (table_id : Z) (date_ranges : list date_range)
  : result (list (key * val)) :=
  st <- extract_run table_id date_ranges ;;
  Ok (rows st).

End Aggregate.

(** The range of a single day, and what the service holds for it:
    [batchGet] on the body of that day, then the [rows] of its report. *)
Definition single_day (day : string) : date_range := mkRange day day.

Definition day_rows (batchGet : request -> result val) (table_id : Z)
    (day : string) : result val :=
  response <- batchGet (body_for table_id (single_day day)) ;;
  response_rows response.

(** A calendar to run the aggregator on: day numbers of the proleptic
    Gregorian calendar (0 is 1970-01-01) and the zero-padded form
    YYYY-MM-DD. *)
Module Calendar.

Definition days_from_civil (y m d : Z) : Z :=
  let y' := if m <=? 2 then y - 1 else y in
  let era := y' / 400 in
  let yoe := y' - era * 400 in
  let doy := (153 * (if 2 <? m then m - 3 else m + 9) + 2) / 5 + d - 1 in
  let doe := yoe * 365 + yoe / 4 - yoe / 100 + doy in
  era * 146097 + doe - 719468.

Definition civil_from_days (z : Z) : Z * Z * Z :=
  let z := z + 719468 in
  let era := z / 146097 in
  let doe := z - era * 146097 in
  let yoe := (doe - doe / 1460 + doe / 36524 - doe / 146096) / 365 in
  let doy := doe - (365 * yoe + yoe / 4 - yoe / 100) in
  let mp := (5 * doy + 2) / 153 in
  let d := doy - (153 * mp + 2) / 5 + 1 in
  let m := if mp <? 10 then mp + 3 else mp - 9 in
  ((if m <=? 2 then yoe + era * 400 + 1 else yoe + era * 400), m, d).

Definition digit (n : Z) : ascii := ascii_of_nat (48 + Z.to_nat (n mod 10)).

Definition digits2 (n : Z) : string :=
  String (digit (n / 10)) (String (digit n) EmptyString).

Definition digits4 (n : Z) : string :=
  (digits2 (n / 100) ++ digits2 n)%string.

Definition strftime (z : Z) : string :=
  let '(y, m, d) := civil_from_days z in
  (digits4 y ++ "-" ++ digits2 m ++ "-" ++ digits2 d)%string.

Definition digit_value (c : ascii) : option Z :=
  let n := Z.of_nat (nat_of_ascii c) in
  if (48 <=? n) && (n <=? 57) then Some (n - 48) else None.

Fixpoint number (cs : list ascii) (acc : Z) : option Z :=
  match cs with
  | [] => Some acc
  | c :: cs' =>
      match digit_value c with
      | Some v => number cs' (10 * acc + v)
      | None => None
      end
  end.

Definition strptime (s : string) : option Z :=
  match list_ascii_of_string s with
  | [y1; y2; y3; y4; sep1; m1; m2; sep2; d1; d2] =>
      if Ascii.eqb sep1 "-" && Ascii.eqb sep2 "-" then
        match number [y1; y2; y3; y4] 0, number [m1; m2] 0, number [d1; d2] 0 with
        | Some y, Some m, Some d =>
            let z := days_from_civil y m d in
            if String.eqb (strftime z) s then Some z else None
        | _, _, _ => None
        end
      else None
  | _ => None
  end.

End Calendar.

Module SampleService.

(** A service that answers every request with one report of one row. *)
Definition batchGet (_ : request) : result val :=
  Ok (VDict [(KStr "reports",
              VList [VDict [(KStr "data",
                             VDict [(KStr "rows", VList [Sample.api_row 4 1])])]])]).

(** A service with no rows for the first of March 2022: the report of
    that day has [data] without a [rows] entry. *)
Definition batchGet_gap (b : request) : result val :=
  match dateRanges b with
  | [r] =>
      if String.eqb (startDate r) "2022-03-01" then
        Ok (VDict [(KStr "reports", VList [VDict [(KStr "data", VDict [])]])])
      else batchGet b
  | _ => batchGet b
  end.

End SampleService.

(** ** Reading the output list *)

Definition sessions_of (l : list entry) : list Session.t :=
  flat_map (fun e => match e with ESession s => [s] | _ => [] end) l.

Definition page_views_of (l : list entry) : list PageView.t :=
  flat_map (fun e => match e with EPageView p => [p] | _ => [] end) l.

Definition strings_of (l : list entry) : list string :=
  flat_map (fun e => match e with EStr s => [s] | _ => [] end) l.

(** [a, a+1, ..., a+n-1] *)
Definition upto (a : Z) (n : nat) : list Z :=
  map (fun i => a + Z.of_nat i) (seq 0 n).

(** Every page view sits after a session with its [session_id]. *)
Definition refers_back (l : list entry) : Prop :=
  forall i p, nth_error l i = Some (EPageView p) ->
    exists j s, (j < i)%nat /\ nth_error l j = Some (ESession s) /\
                Session.session_id s = PageView.session_id p.

(** The constants of lines 299-300 on a record. *)
Definition hardcoded (e : entry) : Prop :=
  match e with
  | ESession s => Session.website_id s = 1 /\ Session.hostname s = "localhost"%string
  | EPageView p => PageView.website_id p = 1
  | EStr _ => False
  end.

(** A session followed by [n] page views, all of that session. *)
Definition session_block (n : nat) (b : list entry) : Prop :=
  exists s ps, b = ESession s :: map EPageView ps /\
               List.length ps = n /\
               Forall (fun p => PageView.session_id p = Session.session_id s) ps.

(** What a stretch of the run adds: [new] is appended to [sql_inserts],
    its sessions and page views take the next identifiers in order, and
    the counters end one past the last identifier handed out. *)
Definition emits (st : locals) (new : list entry) (st' : locals) : Prop :=
  sql_inserts st' = sql_inserts st ++ new /\
  session_id st' = session_id st + Z.of_nat (List.length (sessions_of new)) /\
  page_view_id st' = page_view_id st + Z.of_nat (List.length (page_views_of new)) /\
  map Session.session_id (sessions_of new)
    = upto (session_id st) (List.length (sessions_of new)) /\
  map PageView.id (page_views_of new)
    = upto (page_view_id st) (List.length (page_views_of new)) /\
  Forall hardcoded new.

(** The shape of what a row adds under each policy, for [v] page views
    and [s] sessions: [s] blocks of a session and its page views and,
    under [RestToLast], [v - s] further page views of a session of these
    blocks. *)
Definition shaped (pol : policy) (v s : Z) (new : list entry) : Prop :=
  match pol with
  | OneEach =>
      exists blocks, new = List.concat blocks /\
        List.length blocks = range s /\ Forall (session_block 1) blocks
  | SplitEqually =>
      exists blocks, new = List.concat blocks /\
        List.length blocks = range s /\
        Forall (session_block (range (v / s))) blocks
  | RestToLast =>
      exists blocks extras, new = List.concat blocks ++ map EPageView extras /\
        List.length blocks = range s /\ Forall (session_block 1) blocks /\
        List.length extras = range (v - s) /\
        Forall (fun p => In (PageView.session_id p)
                            (map Session.session_id
                                 (sessions_of (List.concat blocks)))) extras
  end.

(** A row whose seven dimensions can all be read. *)
Definition has_dimensions (row : val) : bool :=
  forallb (fun k => match dimensions row k with Ok _ => true | Raise _ => false end)
          [0; 1; 2; 3; 4; 5; 6].

(** ** The data path of [migrate] *)

(** Lines 208-211 of [migrate]: the three helpers in sequence, on the
    [startDate], [endDate] and [table] entries of the configuration. The
    file and credential handling around them is left out. *)
Definition migrate_data (strptime : string -> option Z) (strftime : Z -> string)
    (batchGet : request -> result val) (uuid4 : nat -> N)
    (startDate endDate : string) (table : Z) : result (list entry) :=
  date_ranges <- _migrate_date_ranges strptime strftime startDate endDate ;;
  rows <- __migrate_extract batchGet table date_ranges ;;
  __migrate_transform uuid4 rows.

(** A record made for [row] with the timestamp [ts] holds what the
    subscripts of lines 311-314 read from [row]. *)
Definition copied (row : val) (ts : string) (e : entry) : Prop :=
  match e with
  | ESession s =>
      Session.created_at s = ts /\
      dimensions row 1 = Ok (Session.browser s) /\
      dimensions row 2 = Ok (Session.os s) /\
      dimensions row 3 = Ok (Session.device s) /\
      dimensions row 4 = Ok (Session.screen s) /\
      dimensions row 5 = Ok (Session.language s) /\
      dimensions row 6 = Ok (Session.country s)
  | EPageView p =>
      PageView.created_at p = ts /\ dimensions row 0 = Ok (PageView.url p)
  | EStr _ => False
  end.

(** The timestamp of line 306. *)
Definition timestamp_of (day : key) : string :=
  (format_key day ++ " 00:00:00.000+00")%string.

(** From [st] to [st'] the run appends records that all satisfy [P], and
    draws one UUID per appended session, in order. *)
Definition grows (uuid4 : nat -> N) (P : entry -> Prop) (st st' : locals) : Prop :=
  exists new,
    sql_inserts st' = sql_inserts st ++ new /\
    Forall P new /\
    uuid_calls st' = (uuid_calls st + List.length (sessions_of new))%nat /\
    map Session.session_uuid (sessions_of new)
      = map uuid4 (seq (uuid_calls st) (List.length (sessions_of new))).

(** A value that is neither an integer nor any other number. *)
Definition not_a_number (v : val) : Prop :=
  match v with
  | VNone | VStr _ | VList _ | VDict _ => True
  | VInt _ => False
  end.

(** ** The [extract] command *)

Module Config.
(** The entries of the configuration [extract] reads. *)
Record t : Type := mk {
  table : Z;
  startDate : string;
  endDate : string;
  dimensions : string;
  metrics : string
}.
End Config.

(** One element of [body["reportRequests"]] as [extract] builds it: the
    names of [dimensions] and the expressions of [metrics], each list
    wrapped in a list (lines 129-130), and the [pageToken] entry, absent
    until line 138 sets it. *)
Record report_request : Type := mkReportRequest {
  r_viewId : string;
  r_dateRanges : list date_range;
  r_dimensions : list (list string);
  r_metrics : list (list string);
  pageToken : option val
}.

(** The variables of the paging loop of [extract]. *)
Record paging : Type := mkPaging {
  body : report_request;
  response : val;
  report_rows : list val
}.

(** [s.split(",")] *)
Fixpoint split_comma (s : string) : list string :=
  match s with
  | EmptyString => [EmptyString]
  | String c s' =>
      if Ascii.eqb c "," then EmptyString :: split_comma s'
      else match split_comma s' with
           | [] => [String c EmptyString]
           | w :: ws => String c w :: ws
           end
  end.

(** [p in s] for two strings. *)
Fixpoint is_substring (p s : string) : bool :=
  String.prefix p s ||
  match s with
  | EmptyString => false
  | String _ s' => is_substring p s'
  end.

(** [k in v] for a string [k]: a key of a dict, an element of a list, a
    substring of a string. *)
Definition contains (v : val) (k : string) : result bool :=
  match v with
  | VDict d => Ok (existsb (fun kv => key_eqb (KStr k) (fst kv)) d)
  | VList l =>
      Ok (existsb (fun x => match x with VStr s => String.eqb s k | _ => false end) l)
  | VStr s => Ok (is_substring k s)
  | VInt _ | VNone => Raise TypeError
  end.

(** [response["reports"][0]] *)
Definition first_report (response : val) : result val :=
  reports <- getitem_str response "reports" ;;
  getitem_int reports 0.

(** [rows.extend(response["reports"][0]["data"]["rows"])] *)
Definition extend_rows (rows : list val) (response : val) : result (list val) :=
  r <- response_rows response ;;
  items <- iter r ;;
  Ok (rows ++ items).

(** What the loop reads from a response: the rows it adds, and the token
    of the next page if there is one. *)
Definition page (response : val) : result (list val * option val) :=
  items <- extend_rows [] response ;;
  report <- first_report response ;;
  more <- contains report "nextPageToken" ;;
  if (more : bool) then
    token <- getitem_str report "nextPageToken" ;;
    Ok (items, Some token)
  else Ok (items, None).

Definition set_token (b : report_request) (token : val) : report_request :=
  mkReportRequest (r_viewId b) (r_dateRanges b) (r_dimensions b) (r_metrics b)
                  (Some token).

Section ExtractCommand.

(** [service.reports().batchGet(body=body).execute()] *)
Variable batchGet : report_request -> result val.

(** The body of lines 118-131. *)
Definition extract_body (config : Config.t) : report_request :=
  mkReportRequest (str_of_int (Config.table config))
    [mkRange (Config.startDate config) (Config.endDate config)]
    [split_comma (Config.dimensions config)]
    [split_comma (Config.metrics config)]
    None.

(** The test of line 137 and, when it holds, the body of the loop
    (lines 138-140); [None] when the test fails. *)
Definition next_page (st : paging) : result (option paging) :=
  report <- first_report (response st) ;;
  more <- contains report "nextPageToken" ;;
  if (more : bool) then
    report' <- first_report (response st) ;;
    token <- getitem_str report' "nextPageToken" ;;
    let body' := set_token (body st) token in
    response' <- batchGet body' ;;
    rows' <- extend_rows (report_rows st) response' ;;
    Ok (Some (mkPaging body' response' rows'))
  else Ok None.

(** The [while] loop of lines 137-140, for at most [fuel] tests; [None]
    when the loop has not ended by then. *)
Fixpoint while_pages (fuel : nat) (st : paging) : option (result (list val)) :=
  match fuel with
  | O => None
  | S k =>
      match next_page st with
      | Raise e => Some (Raise e)
      | Ok None => Some (Ok (report_rows st))
      | Ok (Some st') => while_pages k st'
      end
  end.

(** Lines 118-140: the rows [extract] writes to the report file. *)
Definition extract_rows (fuel : nat) (config : Config.t)
  : option (result (list val)) :=
  let body := extract_body config in
  match batchGet body with
  | Raise e => Some (Raise e)
  | Ok response =>
      match extend_rows [] response with
      | Raise e => Some (Raise e)
      | Ok rows => while_pages fuel (mkPaging body response rows)
      end
  end.

(** The service answers the request [b] with the first of [pages] and a
    token to the next, and so on to the last page, which has no token. *)
Fixpoint serves (b : report_request) (pages : list (list val)) : Prop :=
  match pages with
  | [] => False
  | p :: pages' =>
      exists response next,
        batchGet b = Ok response /\ page response = Ok (p, next) /\
        match next with
        | None => pages' = []
        | Some token => pages' <> [] /\ serves (set_token b token) pages'
        end
  end.

End ExtractCommand.

(** A service with two pages, for the sample runs. *)
Module SamplePages.

Definition response_of (rows : list val) (token : list (key * val)) : val :=
  VDict [(KStr "reports",
          VList [VDict ((KStr "data", VDict [(KStr "rows", VList rows)]) :: token)])].

Definition batchGet (b : report_request) : result val :=
  match pageToken b with
  | None => Ok (response_of [Sample.api_row 4 1; Sample.api_row 2 2]
                            [(KStr "nextPageToken", VStr "2")])
  | Some _ => Ok (response_of [Sample.api_row 7 3] [])
  end.

(** A service that always announces a next page. *)
Definition endless (_ : report_request) : result val :=
  Ok (response_of [Sample.api_row 1 1] [(KStr "nextPageToken", VStr "1")]).

Definition config : Config.t :=
  Config.mk 42 "2022-02-01" "2022-02-28" "ga:pagePath,ga:browser"
            "ga:pageviews,ga:sessions".

End SamplePages.

(** ** [OutputFormat] *)

Inductive OutputFormat : Type := JSON | CSV | UMAMI.

Definition OutputFormat_eqb (a b : OutputFormat) : bool :=
  match a, b with
  | JSON, JSON | CSV, CSV | UMAMI, UMAMI => true
  | _, _ => false
  end.

Definition format_mapping : list (OutputFormat * string) :=
  [(JSON, "json"); (CSV, "csv"); (UMAMI, "sql")]%string.

(** [format_mapping[f]] *)
Definition file_suffix (f : OutputFormat) : result string :=
  of_option KeyError
    (option_map snd
       (find (fun kv => OutputFormat_eqb f (fst kv)) format_mapping)).

(** * Properties *)

(** ** Lists of records *)

Lemma sessions_of_app (a b : list entry) :
  sessions_of (a ++ b) = sessions_of a ++ sessions_of b.
Proof. apply flat_map_app. Qed.

Lemma page_views_of_app (a b : list entry) :
  page_views_of (a ++ b) = page_views_of a ++ page_views_of b.
Proof. apply flat_map_app. Qed.

Lemma strings_of_app (a b : list entry) :
  strings_of (a ++ b) = strings_of a ++ strings_of b.
Proof. apply flat_map_app. Qed.

Lemma sessions_of_views (ps : list PageView.t) :
  sessions_of (map EPageView ps) = [].
Proof. induction ps; simpl; auto. Qed.

Lemma page_views_of_views (ps : list PageView.t) :
  page_views_of (map EPageView ps) = ps.
Proof. induction ps; simpl; congruence. Qed.

Lemma hardcoded_no_string (l : list entry) :
  Forall hardcoded l -> strings_of l = [].
Proof.
  induction 1 as [|e l He _ IH]; simpl; auto.
  destruct e; simpl in *; auto; contradiction.
Qed.

Lemma upto_length (a : Z) (n : nat) : List.length (upto a n) = n.
Proof. unfold upto. now rewrite length_map, length_seq. Qed.

Lemma upto_shift (a : Z) (k n : nat) :
  map (fun i => a + Z.of_nat i) (seq k n) = upto (a + Z.of_nat k) n.
Proof.
  unfold upto. revert k. induction n as [|n IH]; intro k; simpl; auto.
  f_equal; [lia|].
  rewrite IH. rewrite <- (seq_shift n 0), map_map.
  apply map_ext. intro i. lia.
Qed.

Lemma upto_app (a : Z) (n m : nat) :
  upto a (n + m) = upto a n ++ upto (a + Z.of_nat n) m.
Proof.
  unfold upto at 1 2. rewrite seq_app, map_app. f_equal.
  apply upto_shift.
Qed.

Lemma upto_In (a x : Z) (n : nat) :
  a <= x < a + Z.of_nat n -> In x (upto a n).
Proof.
  intro H. unfold upto. apply in_map_iff.
  exists (Z.to_nat (x - a)). split; [lia|].
  apply in_seq. lia.
Qed.

Lemma session_position (l : list entry) (x : Z) :
  In x (map Session.session_id (sessions_of l)) ->
  exists j s, (j < List.length l)%nat /\ nth_error l j = Some (ESession s) /\
              Session.session_id s = x.
Proof.
  intro H. apply in_map_iff in H. destruct H as [s [Hs Hin]].
  unfold sessions_of in Hin. apply in_flat_map in Hin.
  destruct Hin as [e [He Hse]].
  destruct e; simpl in Hse; try contradiction.
  destruct Hse as [-> | []].
  apply In_nth_error in He. destruct He as [j Hj].
  exists j, s. split; [|split]; auto.
  apply nth_error_Some. congruence.
Qed.

Lemma refers_back_app (a b : list entry) :
  refers_back a -> refers_back b -> refers_back (a ++ b).
Proof.
  intros Ha Hb i p Hi.
  destruct (Nat.lt_ge_cases i (List.length a)) as [Hlt | Hge].
  - rewrite nth_error_app1 in Hi by assumption.
    destruct (Ha i p Hi) as [j [s [Hj [Hs Hid]]]].
    exists j, s. split; [assumption|]. split; [|assumption].
    rewrite nth_error_app1 by lia. assumption.
  - rewrite nth_error_app2 in Hi by assumption.
    destruct (Hb _ p Hi) as [j [s [Hj [Hs Hid]]]].
    exists (List.length a + j)%nat, s. split; [lia|]. split; [|assumption].
    rewrite nth_error_app2 by lia.
    replace (List.length a + j - List.length a)%nat with j by lia. assumption.
Qed.

Lemma refers_back_views (a : list entry) (ps : list PageView.t) :
  refers_back a ->
  Forall (fun p => In (PageView.session_id p)
                      (map Session.session_id (sessions_of a))) ps ->
  refers_back (a ++ map EPageView ps).
Proof.
  intros Ha Hps i p Hi.
  destruct (Nat.lt_ge_cases i (List.length a)) as [Hlt | Hge].
  - rewrite nth_error_app1 in Hi by assumption.
    destruct (Ha i p Hi) as [j [s [Hj [Hs Hid]]]].
    exists j, s. split; [assumption|]. split; [|assumption].
    rewrite nth_error_app1 by lia. assumption.
  - rewrite nth_error_app2 in Hi by assumption.
    apply nth_error_In in Hi. apply in_map_iff in Hi.
    destruct Hi as [p' [Heq Hin]]. injection Heq as ->.
    rewrite Forall_forall in Hps.
    destruct (session_position a _ (Hps p Hin)) as [j [s [Hj [Hs Hid]]]].
    exists j, s. split; [lia|]. split; [|assumption].
    rewrite nth_error_app1 by assumption. assumption.
Qed.

Lemma refers_back_nil : refers_back [].
Proof. intros i p Hi. destruct i; discriminate. Qed.

Lemma refers_back_block (n : nat) (b : list entry) :
  session_block n b -> refers_back b.
Proof.
  intros [s [ps [-> [_ Hps]]]].
  change (ESession s :: map EPageView ps) with ([ESession s] ++ map EPageView ps).
  apply refers_back_views.
  - intros i p Hi. destruct i as [|[|i]]; discriminate.
  - simpl. apply Forall_impl with (2 := Hps). intros p Hp. now left.
Qed.

Lemma refers_back_concat (ls : list (list entry)) :
  Forall refers_back ls -> refers_back (List.concat ls).
Proof.
  induction 1 as [|l ls Hl _ IH]; simpl.
  - apply refers_back_nil.
  - now apply refers_back_app.
Qed.

Lemma refers_back_string (a : list entry) (s : string) :
  refers_back a -> refers_back (a ++ [EStr s]).
Proof.
  intro Ha. apply refers_back_app; [assumption|].
  intros i p Hi. destruct i as [|[|i]]; discriminate.
Qed.

(** ** Exceptions and loops *)

Lemma bind_Ok {A B : Type} (r : result A) (k : A -> result B) (b : B) :
  bind r k = Ok b -> exists a, r = Ok a /\ k a = Ok b.
Proof. destruct r as [a|e]; simpl; [eauto | discriminate]. Qed.

Ltac splits := repeat match goal with |- _ /\ _ => split end.

Ltac bind_inv H :=
  let a := fresh "a" in
  let Ha := fresh "H" a in
  apply bind_Ok in H; destruct H as [a [Ha H]].

Lemma emits_nil (st : locals) : emits st [] st.
Proof.
  unfold emits; simpl. rewrite app_nil_r, !Z.add_0_r. repeat split; auto.
Qed.

Lemma emits_app (st st1 st2 : locals) (n1 n2 : list entry) :
  emits st n1 st1 -> emits st1 n2 st2 -> emits st (n1 ++ n2) st2.
Proof.
  intros (I1 & S1 & V1 & SI1 & VI1 & C1) (I2 & S2 & V2 & SI2 & VI2 & C2).
  unfold emits.
  rewrite sessions_of_app, page_views_of_app, !length_app, !map_app, !upto_app.
  rewrite SI1, VI1, SI2, VI2, I2, I1, S2, S1, V2, V1, !Nat2Z.inj_add.
  repeat split.
  - now rewrite app_assoc.
  - lia.
  - lia.
  - apply Forall_app; auto.
Qed.

Lemma for_range_emits {body : locals -> result locals} {Q : list entry -> Prop} :
  (forall st st', body st = Ok st' -> exists new, emits st new st' /\ Q new) ->
  forall n st st', for_range n body st = Ok st' ->
    exists news, emits st (List.concat news) st' /\ List.length news = n /\ Forall Q news.
Proof.
  intros Hbody n. induction n as [|n IH]; intros st st' H; simpl in H.
  - injection H as <-. exists []. simpl. auto using emits_nil.
  - bind_inv H. destruct (Hbody _ _ Ha) as [new [Hnew HQ]].
    destruct (IH _ _ H) as [news [Hnews [Hlen HF]]].
    exists (new :: news). simpl. split; [|split]; auto.
    eapply emits_app; eauto.
Qed.

Lemma for_each_emits {A : Type} {body : A -> locals -> result locals}
    {Q : A -> list entry -> Prop} :
  (forall x st st', body x st = Ok st' -> exists new, emits st new st' /\ Q x new) ->
  forall xs st st', for_each xs body st = Ok st' ->
    exists news, emits st (List.concat news) st' /\ Forall2 Q xs news.
Proof.
  intros Hbody xs. induction xs as [|x xs IH]; intros st st' H; simpl in H.
  - injection H as <-. exists []. simpl. auto using emits_nil.
  - bind_inv H. destruct (Hbody _ _ _ Ha) as [new [Hnew HQ]].
    destruct (IH _ _ H) as [news [Hnews HF]].
    exists (new :: news). simpl. split; auto.
    eapply emits_app; eauto.
Qed.

Lemma blocks_sessions (m : nat) (blocks : list (list entry)) :
  Forall (session_block m) blocks ->
  List.length (sessions_of (List.concat blocks)) = List.length blocks.
Proof.
  induction 1 as [|b bs Hb _ IH]; simpl; auto.
  rewrite sessions_of_app, length_app, IH.
  destruct Hb as [s [ps [-> _]]]. simpl.
  now rewrite sessions_of_views.
Qed.

Lemma blocks_page_views (m : nat) (blocks : list (list entry)) :
  Forall (session_block m) blocks ->
  List.length (page_views_of (List.concat blocks)) = (List.length blocks * m)%nat.
Proof.
  induction 1 as [|b bs Hb _ IH]; simpl; auto.
  rewrite page_views_of_app, length_app, IH.
  destruct Hb as [s [ps [-> [Hlen _]]]]. simpl.
  now rewrite page_views_of_views, Hlen.
Qed.

Lemma max1_max (z : Z) : (if 1 >? z then 1 else z) = Z.max z 1.
Proof. destruct (1 >? z) eqn:E; lia. Qed.

(** ** The loop bodies of [__migrate_transform] *)

Section TransformFacts.

Variable uuid4 : nat -> N.

Lemma new_session_spec (row : val) (ts : string) (st : locals) (s : Session.t) :
  new_session uuid4 row ts st = Ok s ->
  Session.session_id s = session_id st /\
  Session.session_uuid s = uuid4 (uuid_calls st) /\
  Session.website_id s = 1 /\
  Session.created_at s = ts /\
  Session.hostname s = "localhost"%string.
Proof.
  unfold new_session. intro H.
  repeat bind_inv H. injection H as <-. simpl. auto.
Qed.

Lemma new_page_view_spec (row : val) (ts : string) (sid : Z) (st : locals)
    (p : PageView.t) :
  new_page_view row ts sid st = Ok p ->
  PageView.id p = page_view_id st /\
  PageView.website_id p = 1 /\
  PageView.session_id p = sid /\
  PageView.created_at p = ts.
Proof.
  unfold new_page_view. intro H.
  bind_inv H. injection H as <-. simpl. auto.
Qed.

Lemma session_and_view_emits (row : val) (ts : string) (st st' : locals) :
  session_and_view uuid4 row ts st = Ok st' ->
  exists new, emits st new st' /\ session_block 1 new.
Proof.
  unfold session_and_view. intro H.
  bind_inv H. rename a into s. bind_inv H. rename a into p.
  injection H as <-.
  destruct (new_session_spec _ _ _ _ Ha) as (Hsid & _ & Hw & _ & Hh).
  destruct (new_page_view_spec _ _ _ _ _ Ha0) as (Hid & Hpw & Hps & _).
  exists [ESession s; EPageView p]. split.
  - unfold emits, upto; simpl. rewrite Hsid, Hid, !Z.add_0_r.
    repeat split; auto. repeat (constructor; simpl; auto).
  - exists s, [p]. repeat split; auto. constructor; [congruence | constructor].
Qed.

Lemma view_only_emits (row : val) (ts : string) (sid : Z) (st st' : locals) :
  view_only row ts sid st = Ok st' ->
  exists p, emits st [EPageView p] st' /\ PageView.session_id p = sid.
Proof.
  unfold view_only. intro H.
  bind_inv H. rename a into p. injection H as <-.
  destruct (new_page_view_spec _ _ _ _ _ Ha) as (Hid & Hpw & Hps & _).
  exists p. split; [|assumption].
  unfold emits, upto; simpl. rewrite Hid, !Z.add_0_r.
  repeat split; auto.
Qed.

Lemma views_loop_emits (row : val) (ts : string) (sid : Z) (n : nat) :
  forall st st',
  for_range n (view_only row ts sid) st = Ok st' ->
  exists ps, emits st (map EPageView ps) st' /\ List.length ps = n /\
             Forall (fun p => PageView.session_id p = sid) ps.
Proof.
  induction n as [|n IH]; intros st st' H; simpl in H.
  - injection H as <-. exists []. simpl. auto using emits_nil.
  - bind_inv H. destruct (view_only_emits _ _ _ _ _ Ha) as [p [Hp Hsid]].
    destruct (IH _ _ H) as [ps [Hps [Hlen HF]]].
    exists (p :: ps). simpl. split; [|split]; auto.
    change (EPageView p :: map EPageView ps)
      with ([EPageView p] ++ map EPageView ps).
    eapply emits_app; eauto.
Qed.

Lemma session_with_views_emits (row : val) (ts : string) (v s : Z)
    (st st' : locals) :
  session_with_views uuid4 row ts (VInt v) s st = Ok st' ->
  exists new, emits st new st' /\ session_block (range (v / s)) new.
Proof.
  unfold session_with_views. intro H.
  bind_inv H. rename a into se. bind_inv H. rename a into n.
  bind_inv H. rename a into st2. injection H as <-.
  destruct (new_session_spec _ _ _ _ Ha) as (Hsid & _ & Hw & _ & Hh).
  unfold floordiv in Ha0. destruct (s =? 0); [discriminate|].
  injection Ha0 as <-.
  apply views_loop_emits in Ha1. destruct Ha1 as [ps [Hps [Hlen HF]]].
  simpl in HF.
  exists (ESession se :: map EPageView ps). split.
  - destruct Hps as (I & S & V & SI & VI & C). simpl in I, S, V, SI, VI.
    unfold emits; simpl.
    rewrite sessions_of_views in *. rewrite page_views_of_views in *.
    simpl in *. unfold upto; simpl.
    rewrite I, <- app_assoc, S, V, Hsid, VI. simpl.
    repeat split; auto; try lia.
    + f_equal. lia.
    + constructor; simpl; auto.
  - exists se, ps. repeat split; auto.
    apply Forall_impl with (2 := HF). intros p Hp. congruence.
Qed.

Lemma max1_int (x : val) (s : Z) :
  max1 x = Ok s -> exists sess, x = VInt sess /\ s = Z.max sess 1.
Proof.
  destruct x; simpl; try discriminate.
  intro H. injection H as <-. eexists. split; [reflexivity | apply max1_max].
Qed.

Lemma select_policy_int (x : val) (s : Z) (pol : policy) :
  select_policy x s = Ok pol -> exists v, x = VInt v.
Proof.
  unfold select_policy. intro H. bind_inv H.
  destruct x; simpl in Ha; try discriminate. eauto.
Qed.

Lemma select_policy_spec (v s : Z) :
  s <> 0 ->
  select_policy (VInt v) s
  = Ok (if v / s =? 1 then OneEach
        else if v mod s =? 0 then SplitEqually else RestToLast).
Proof.
  intro Hs. unfold select_policy, floordiv, modulo.
  apply Z.eqb_neq in Hs. rewrite Hs. simpl.
  destruct (v / s =? 1); [reflexivity|]. simpl.
  destruct (v mod s =? 0); reflexivity.
Qed.

Lemma transform_item_shaped (day : key) (row : val) (st st' : locals) :
  transform_item uuid4 (day, row) st = Ok st' ->
  exists v sess pol new,
    metrics row = Ok (VInt v, VInt sess) /\
    select_policy (VInt v) (Z.max sess 1) = Ok pol /\
    emits st new st' /\
    shaped pol v (Z.max sess 1) new.
Proof.
  unfold transform_item. intro H.
  bind_inv H. destruct a as [pv s0]. bind_inv H. rename a into s.
  bind_inv H. rename a into pol.
  destruct (max1_int _ _ Ha0) as [sess [-> ->]].
  destruct (select_policy_int _ _ _ Ha1) as [v ->].
  exists v, sess, pol.
  set (s := Z.max sess 1) in *.
  assert (Hs : (1 <= range s)%nat) by (unfold range; subst s; lia).
  destruct pol.
  - destruct (for_range_emits (session_and_view_emits row _) _ _ _ H)
      as [blocks [Hem [Hlen HF]]].
    exists (List.concat blocks). splits; auto.
    exists blocks. auto.
  - destruct (for_range_emits (session_with_views_emits row _ v s) _ _ _ H)
      as [blocks [Hem [Hlen HF]]].
    exists (List.concat blocks). splits; auto.
    exists blocks. auto.
  - bind_inv H. rename a into st1. bind_inv H. rename a into n.
    simpl in Ha3. injection Ha3 as <-.
    destruct (for_range_emits (session_and_view_emits row _) _ _ _ Ha2)
      as [blocks [Hem [Hlen HF]]].
    destruct (views_loop_emits _ _ _ _ _ _ H) as [extras [Hex [Hn Hsid]]].
    exists (List.concat blocks ++ map EPageView extras). splits; auto.
    + eapply emits_app; eauto.
    + exists blocks, extras. splits; auto.
      apply Forall_impl with (2 := Hsid). intros p ->.
      destruct Hem as (_ & S & _ & SI & _). rewrite SI, S.
      rewrite (blocks_sessions _ _ HF), Hlen.
      apply upto_In. lia.
Qed.

Lemma shaped_refers_back (pol : policy) (v s : Z) (new : list entry) :
  shaped pol v s new -> refers_back new.
Proof.
  destruct pol; simpl.
  - intros [blocks [-> [_ HF]]]. apply refers_back_concat.
    apply Forall_impl with (2 := HF). apply refers_back_block.
  - intros [blocks [-> [_ HF]]]. apply refers_back_concat.
    apply Forall_impl with (2 := HF). apply refers_back_block.
  - intros [blocks [extras [-> [_ [HF [_ Hex]]]]]].
    apply refers_back_views; [|assumption].
    apply refers_back_concat.
    apply Forall_impl with (2 := HF). apply refers_back_block.
Qed.

Lemma shaped_sessions (pol : policy) (v s : Z) (new : list entry) :
  shaped pol v s new -> List.length (sessions_of new) = range s.
Proof.
  destruct pol; simpl.
  - intros [blocks [-> [Hlen HF]]]. now rewrite (blocks_sessions _ _ HF).
  - intros [blocks [-> [Hlen HF]]]. now rewrite (blocks_sessions _ _ HF).
  - intros [blocks [extras [-> [Hlen [HF _]]]]].
    rewrite sessions_of_app, sessions_of_views, app_nil_r.
    now rewrite (blocks_sessions _ _ HF).
Qed.

Lemma shaped_page_views (pol : policy) (v s : Z) (new : list entry) :
  shaped pol v s new ->
  List.length (page_views_of new)
  = match pol with
    | OneEach => range s
    | SplitEqually => (range s * range (v / s))%nat
    | RestToLast => (range s + range (v - s))%nat
    end.
Proof.
  destruct pol; simpl.
  - intros [blocks [-> [Hlen HF]]]. rewrite (blocks_page_views _ _ HF). lia.
  - intros [blocks [-> [Hlen HF]]]. rewrite (blocks_page_views _ _ HF). lia.
  - intros [blocks [extras [-> [Hlen [HF [Hex _]]]]]].
    rewrite page_views_of_app, page_views_of_views, length_app.
    rewrite (blocks_page_views _ _ HF). lia.
Qed.

(** The whole loop over [rows.items()]. *)
Lemma run_emits (rows : list (key * val)) (st st' : locals) :
  for_each rows (transform_item uuid4) st = Ok st' ->
  exists new, emits st new st' /\ refers_back new.
Proof.
  intro H.
  destruct (@for_each_emits _ (transform_item uuid4)
              (fun _ new => refers_back new)) with (2 := H)
    as [news [Hem HF]].
  - intros [day row] s0 s1 Hi.
    destruct (transform_item_shaped _ _ _ _ Hi)
      as (v & sess & pol & new & _ & _ & Hnew & Hsh).
    exists new. split; [assumption|]. eapply shaped_refers_back; eauto.
  - exists (List.concat news). split; [assumption|].
    apply refers_back_concat.
    clear Hem H. induction HF; constructor; auto.
Qed.

(** The output of a run that returns: the records added by the loop, and
    the one string after them. *)
Lemma transform_output (rows : list (key * val)) (out : list entry) :
  __migrate_transform uuid4 rows = Ok out ->
  exists new st,
    emits initial new st /\ refers_back new /\
    out = new ++ [EStr (setval_statements (page_view_id st) (session_id st))].
Proof.
  unfold __migrate_transform. intro H. bind_inv H. rename a into st.
  injection H as <-.
  destruct (run_emits _ _ _ Ha) as [new [Hem Hrb]].
  exists new, st. splits; auto.
  destruct Hem as (-> & _). reflexivity.
Qed.

(** A row with integer metrics and all seven dimensions is processed
    without an exception. *)
Lemma new_session_total (row : val) (ts : string) (st : locals) :
  has_dimensions row = true -> exists s, new_session uuid4 row ts st = Ok s.
Proof.
  unfold has_dimensions, new_session. simpl. intro H.
  repeat (apply andb_prop in H; destruct H as [? H]).
  repeat match goal with
         | Hd : match dimensions ?r ?k with Ok _ => true | Raise _ => false end = true |- _ =>
             destruct (dimensions r k); [clear Hd | discriminate Hd]
         end.
  simpl. eauto.
Qed.

Lemma new_page_view_total (row : val) (ts : string) (sid : Z) (st : locals) :
  has_dimensions row = true -> exists p, new_page_view row ts sid st = Ok p.
Proof.
  unfold has_dimensions, new_page_view. simpl. intro H.
  apply andb_prop in H. destruct H as [H _].
  destruct (dimensions row 0); [|discriminate]. simpl. eauto.
Qed.

Lemma for_range_total {S : Type} (body : S -> result S) :
  (forall st, exists st', body st = Ok st') ->
  forall n st, exists st', for_range n body st = Ok st'.
Proof.
  intros Hb n. induction n as [|n IH]; intro st; simpl; eauto.
  destruct (Hb st) as [st1 ->]. simpl. apply IH.
Qed.

Lemma session_and_view_total (row : val) (ts : string) (st : locals) :
  has_dimensions row = true ->
  exists st', session_and_view uuid4 row ts st = Ok st'.
Proof.
  intro Hd. unfold session_and_view.
  destruct (new_session_total row ts st Hd) as [s ->].
  destruct (new_page_view_total row ts (session_id st) st Hd) as [p ->].
  simpl. eauto.
Qed.

Lemma view_only_total (row : val) (ts : string) (sid : Z) (st : locals) :
  has_dimensions row = true ->
  exists st', view_only row ts sid st = Ok st'.
Proof.
  intro Hd. unfold view_only.
  destruct (new_page_view_total row ts sid st Hd) as [p ->].
  simpl. eauto.
Qed.

Lemma session_with_views_total (row : val) (ts : string) (v s : Z) (st : locals) :
  has_dimensions row = true -> s <> 0 ->
  exists st', session_with_views uuid4 row ts (VInt v) s st = Ok st'.
Proof.
  intros Hd Hs. unfold session_with_views.
  destruct (new_session_total row ts st Hd) as [se ->]. simpl.
  apply Z.eqb_neq in Hs. rewrite Hs. simpl.
  match goal with
  | |- context [for_range ?n ?b ?x] =>
      destruct (for_range_total b (fun y => view_only_total row ts _ y Hd) n x)
        as [st2 ->]
  end.
  simpl. eauto.
Qed.

Lemma transform_item_total (day : key) (row : val) (v sess : Z) (st : locals) :
  metrics row = Ok (VInt v, VInt sess) ->
  has_dimensions row = true ->
  exists st', transform_item uuid4 (day, row) st = Ok st'.
Proof.
  intros Hm Hd. unfold transform_item. rewrite Hm. simpl.
  rewrite max1_max.
  assert (Hs : Z.max sess 1 <> 0) by lia.
  rewrite (select_policy_spec v _ Hs). simpl.
  destruct (v / Z.max sess 1 =? 1).
  - apply for_range_total. intro. now apply session_and_view_total.
  - destruct (v mod Z.max sess 1 =? 0).
    + apply for_range_total. intro. now apply session_with_views_total.
    + match goal with
      | |- context [for_range ?n ?b ?x] =>
          destruct (for_range_total b
                      (fun y => session_and_view_total row _ y Hd) n x)
            as [st1 ->]
      end.
      simpl. apply for_range_total. intro. now apply view_only_total.
Qed.

End TransformFacts.

(** ** Uniqueness of session identifiers *)

Lemma in_sessions_of (l : list entry) (s : Session.t) :
  In (ESession s) l -> In s (sessions_of l).
Proof.
  intro H. unfold sessions_of. apply in_flat_map.
  exists (ESession s). split; [assumption | now left].
Qed.

Lemma in_page_views_of (l : list entry) (p : PageView.t) :
  In (EPageView p) l -> In p (page_views_of l).
Proof.
  intro H. unfold page_views_of. apply in_flat_map.
  exists (EPageView p). split; [assumption | now left].
Qed.

Lemma upto_NoDup (a : Z) (n : nat) : NoDup (upto a n).
Proof.
  unfold upto. apply Injective_map_NoDup.
  - intros x y H. lia.
  - apply seq_NoDup.
Qed.

Lemma session_position_unique (l : list entry) :
  NoDup (map Session.session_id (sessions_of l)) ->
  forall j k s s',
    nth_error l j = Some (ESession s) ->
    nth_error l k = Some (ESession s') ->
    Session.session_id s = Session.session_id s' ->
    j = k.
Proof.
  induction l as [|e l IH]; intros Hnd j k s s' Hj Hk Hid.
  - destruct j; discriminate.
  - assert (Htl : NoDup (map Session.session_id (sessions_of l))).
    { destruct e; simpl in Hnd; auto. now inversion Hnd. }
    destruct j as [|j], k as [|k]; simpl in Hj, Hk.
    + reflexivity.
    + exfalso. injection Hj as ->. simpl in Hnd. inversion Hnd as [|x xs Hnot _]; subst.
      apply Hnot. rewrite Hid. apply in_map, in_sessions_of.
      eapply nth_error_In; eauto.
    + exfalso. injection Hk as ->. simpl in Hnd. inversion Hnd as [|x xs Hnot _]; subst.
      apply Hnot. rewrite <- Hid. apply in_map, in_sessions_of.
      eapply nth_error_In; eauto.
    + f_equal. eapply IH; eauto.
Qed.

Lemma output_identifiers (uuid4 : nat -> N) (rows : list (key * val))
    (out : list entry) :
  __migrate_transform uuid4 rows = Ok out ->
  map Session.session_id (sessions_of out)
    = upto 1 (List.length (sessions_of out)) /\
  map PageView.id (page_views_of out)
    = upto 1 (List.length (page_views_of out)).
Proof.
  intro H. destruct (transform_output _ _ _ H) as (new & st & Hem & _ & ->).
  rewrite sessions_of_app, page_views_of_app. simpl. rewrite !app_nil_r.
  destruct Hem as (_ & _ & _ & SI & VI & _). simpl in SI, VI. auto.
Qed.

(** The page views a row adds, for [v >= 0] page views and
    [s = max(sessions, 1)] sessions: [s] when [v // s == 1], else [v] when
    [s] divides [v], else [max(v, s)]. *)
Lemma page_views_added (uuid4 : nat -> N) (day : key) (row : val)
    (v sess : Z) (st st' : locals) :
  metrics row = Ok (VInt v, VInt sess) ->
  transform_item uuid4 (day, row) st = Ok st' ->
  0 <= v ->
  exists new,
    sql_inserts st' = sql_inserts st ++ new /\
    Z.of_nat (List.length (page_views_of new))
    = (if v / Z.max sess 1 =? 1 then Z.max sess 1
       else if v mod Z.max sess 1 =? 0 then v
       else Z.max v (Z.max sess 1)).
Proof.
  intros Hm Hrun Hv.
  destruct (transform_item_shaped _ _ _ _ _ Hrun)
    as (v' & sess' & pol & new & Hm' & Hpol & Hem & Hsh).
  rewrite Hm in Hm'. injection Hm' as <- <-.
  set (s := Z.max sess 1) in *.
  assert (Hs : s <> 0) by (subst s; lia).
  assert (Hs1 : 1 <= s) by (subst s; lia).
  rewrite (select_policy_spec v s Hs) in Hpol.
  exists new. split; [apply Hem|].
  rewrite (shaped_page_views _ _ _ _ Hsh). unfold range.
  destruct (v / s =? 1).
  - injection Hpol as <-. lia.
  - destruct (v mod s =? 0) eqn:Hmod; injection Hpol as <-.
    + apply Z.eqb_eq in Hmod.
      pose proof (Z.div_mod v s Hs) as Hdm.
      assert (0 <= v / s) by (apply Z.div_pos; lia).
      rewrite Nat2Z.inj_mul, !Z2Nat.id by lia. lia.
    + lia.
Qed.

(** Metric values that are strings, as in the sample row of line 291,
    stop the row at [max(sessions, 1)]. *)
Lemma string_sessions_raise (uuid4 : nat -> N) (day : key) (row : val)
    (pv : val) (sess : string) (st : locals) :
  metrics row = Ok (pv, VStr sess) ->
  transform_item uuid4 (day, row) st = Raise TypeError.
Proof. intro Hm. unfold transform_item. rewrite Hm. reflexivity. Qed.

(** ** The claims on [__migrate_transform] *)

(** C1 (the code departs from it). Every row is meant to yield as many
    page views as its [pageViews] metric. For 3 page views and 2 sessions
    the test [page_views // sessions == 1] of line 309 holds, the first
    branch runs, and the run returns with 2 sessions and only 2 page
    views. *)
Theorem C1_three_views_two_sessions :
  exists out,
    __migrate_transform Sample.uuid4 [(KStr "2022-02-22", Sample.day_value 3 2)]
      = Ok out /\
    select_policy (VInt 3) 2 = Ok OneEach /\
    List.length (sessions_of out) = 2%nat /\
    List.length (page_views_of out) = 2%nat.
Proof. eexists. split; [vm_compute; reflexivity|]. repeat split. Qed.

(** C2 (the code departs from it). For 5 page views and 3 sessions the
    comment of line 297 and the claim expect the page views to go to
    sessions 1, 2, 3, 3, 3. Since [5 // 3 == 1] the first branch runs:
    three sessions with one page view each, three page views in all. *)
Theorem C2_five_views_three_sessions :
  exists out,
    __migrate_transform Sample.uuid4 [(KStr "2022-02-22", Sample.day_value 5 3)]
      = Ok out /\
    select_policy (VInt 5) 3 = Ok OneEach /\
    map Session.session_id (sessions_of out) = [1; 2; 3] /\
    map PageView.session_id (page_views_of out) = [1; 2; 3] /\
    List.length (page_views_of out) = 3%nat.
Proof. eexists. split; [vm_compute; reflexivity|]. repeat split. Qed.

(** C3. In the output of a run, the [session_id]s of the Session records
    are 1, 2, 3, ... in emission order, and so are the [id]s of the
    PageView records: no gap, no repeat, no reset between days. *)
Theorem C3_identifier_sequences (uuid4 : nat -> N) (rows : list (key * val))
    (out : list entry) :
  __migrate_transform uuid4 rows = Ok out ->
  map Session.session_id (sessions_of out)
    = upto 1 (List.length (sessions_of out)) /\
  map PageView.id (page_views_of out)
    = upto 1 (List.length (page_views_of out)).
Proof. apply output_identifiers. Qed.

Lemma C3_identifier_sequences_witness :
  exists out,
    __migrate_transform Sample.uuid4
      [(KStr "2022-02-22", Sample.day_value 4 2);
       (KStr "2022-02-23", Sample.day_value 7 3)] = Ok out /\
    map Session.session_id (sessions_of out) = [1; 2; 3; 4; 5] /\
    map PageView.id (page_views_of out) = [1; 2; 3; 4; 5; 6; 7; 8; 9; 10; 11].
Proof.
  eexists. split; [vm_compute; reflexivity|].
  apply (C3_identifier_sequences Sample.uuid4
           [(KStr "2022-02-22", Sample.day_value 4 2);
            (KStr "2022-02-23", Sample.day_value 7 3)]).
  vm_compute; reflexivity.
Defined.

(** C4. In the output of a run, a PageView at position [i] has the
    [session_id] of a Session at a position [j < i], and no Session at
    position [i] or later carries that [session_id]. *)
Theorem C4_no_forward_reference (uuid4 : nat -> N) (rows : list (key * val))
    (out : list entry) (i : nat) (p : PageView.t) :
  __migrate_transform uuid4 rows = Ok out ->
  nth_error out i = Some (EPageView p) ->
  (exists j s, (j < i)%nat /\ nth_error out j = Some (ESession s) /\
               Session.session_id s = PageView.session_id p) /\
  (forall k s, nth_error out k = Some (ESession s) ->
               Session.session_id s = PageView.session_id p -> (k < i)%nat).
Proof.
  intros H Hi.
  destruct (transform_output _ _ _ H) as (new & st & Hem & Hrb & Hout).
  assert (Hback : refers_back out).
  { rewrite Hout. now apply refers_back_string. }
  destruct (Hback i p Hi) as [j [s [Hj [Hs Hid]]]].
  split; [eauto|].
  intros k s' Hk Hid'.
  assert (Hnd : NoDup (map Session.session_id (sessions_of out))).
  { destruct (output_identifiers uuid4 rows out H) as [-> _].
    apply upto_NoDup. }
  assert (j = k) by (eapply session_position_unique; eauto; congruence).
  lia.
Qed.

Lemma C4_no_forward_reference_witness :
  exists out p,
    __migrate_transform Sample.uuid4 [(KStr "2022-02-22", Sample.day_value 5 2)]
      = Ok out /\
    nth_error out 4 = Some (EPageView p) /\
    PageView.session_id p = 2 /\
    (exists j s, (j < 4)%nat /\ nth_error out j = Some (ESession s) /\
                 Session.session_id s = PageView.session_id p) /\
    (forall k s, nth_error out k = Some (ESession s) ->
                 Session.session_id s = PageView.session_id p -> (k < 4)%nat).
Proof.
  eexists. eexists.
  split; [vm_compute; reflexivity|].
  split; [vm_compute; reflexivity|].
  split; [reflexivity|].
  apply (C4_no_forward_reference Sample.uuid4
           [(KStr "2022-02-22", Sample.day_value 5 2)]);
    vm_compute; reflexivity.
Defined.

(** Every run that returns ends its output with one string, and holds no
    other string. *)
Lemma output_strings (uuid4 : nat -> N) (rows : list (key * val))
    (out : list entry) :
  __migrate_transform uuid4 rows = Ok out ->
  exists pv sid, strings_of out = [setval_statements pv sid] /\
                 last out (EStr "") = EStr (setval_statements pv sid) /\
                 pv = 1 + Z.of_nat (List.length (page_views_of out)) /\
                 sid = 1 + Z.of_nat (List.length (sessions_of out)).
Proof.
  intro H. destruct (transform_output _ _ _ H) as (new & st & Hem & _ & ->).
  exists (page_view_id st), (session_id st).
  destruct Hem as (_ & S & V & _ & _ & C). simpl in S, V.
  rewrite strings_of_app, sessions_of_app, page_views_of_app, last_last.
  rewrite (hardcoded_no_string _ C). simpl. rewrite !app_nil_r. auto.
Qed.

(** C5 (the code departs from it). Two sequence-reset entries are meant
    to close the output. The list literal of lines 345-348 holds two
    adjacent f-strings with no comma between them, which Python joins:
    one entry is appended, holding both statements. With the counters at
    4 and 4: *)
Theorem C5_one_entry_for_both_sequences :
  exists out,
    __migrate_transform Sample.uuid4 [(KStr "2022-02-22", Sample.day_value 5 3)]
      = Ok out /\
    List.length out = 7%nat /\
    List.length (sessions_of out) = 3%nat /\
    List.length (page_views_of out) = 3%nat /\
    strings_of out =
      [("SELECT pg_catalog.setval('public.pageview_view_id_seq', 4, true);"
        ++ "SELECT pg_catalog.setval('public.session_session_id_seq', 4, true);")%string].
Proof. eexists. split; [vm_compute; reflexivity|]. repeat split. Qed.

(** C6 (the code departs from it). A row with 0 sessions is meant to
    count as one session and to yield [max(sessions, 1)] Session records.
    For a day holding one row with 3 page views and 0 sessions, line 307
    reads the metrics from [row[0]] and line 308 turns the 0 into 1, but
    line 322 subscripts the day's list with ["dimensions"]: the run ends
    with TypeError and no Session is emitted. With the row itself as the
    day's value, [row[0]] raises KeyError. *)
Theorem C6_zero_sessions_row_raises :
  metrics (VList [Sample.api_row 3 0]) = Ok (VInt 3, VInt 0) /\
  max1 (VInt 0) = Ok 1 /\
  __migrate_transform Sample.uuid4
    [(KStr "2022-02-22", VList [Sample.api_row 3 0])] = Raise TypeError /\
  __migrate_transform Sample.uuid4
    [(KStr "2022-02-22", Sample.api_row 3 0)] = Raise KeyError.
Proof. repeat split; vm_compute; reflexivity. Qed.

(** X21. A day value from which line 307 reads two integers and from
    which [row["dimensions"]] can be read at the indices 0 to 6 is
    processed without an exception and adds [max(sessions, 1)] Session
    records: one when [sessions] is 0. *)
Theorem X21_sessions_of_a_readable_row (uuid4 : nat -> N) (day : key) (row : val)
    (v sess : Z) (st : locals) :
  metrics row = Ok (VInt v, VInt sess) ->
  has_dimensions row = true ->
  exists st' new,
    transform_item uuid4 (day, row) st = Ok st' /\
    sql_inserts st' = sql_inserts st ++ new /\
    Z.of_nat (List.length (sessions_of new)) = Z.max sess 1 /\
    (sess = 0 -> List.length (sessions_of new) = 1%nat).
Proof.
  intros Hm Hd.
  destruct (transform_item_total uuid4 day row v sess st Hm Hd) as [st' Hrun].
  destruct (transform_item_shaped _ _ _ _ _ Hrun)
    as (v' & sess' & pol & new & Hm' & _ & Hem & Hsh).
  rewrite Hm in Hm'. injection Hm' as <- <-.
  exists st', new. splits; auto.
  - apply Hem.
  - rewrite (shaped_sessions _ _ _ _ Hsh). unfold range. lia.
  - intros ->. rewrite (shaped_sessions _ _ _ _ Hsh). reflexivity.
Qed.

Lemma X21_sessions_of_a_readable_row_witness :
  exists st' new,
    transform_item Sample.uuid4 (KStr "2022-02-22", Sample.day_value 3 0) initial
      = Ok st' /\
    sql_inserts st' = sql_inserts initial ++ new /\
    Z.of_nat (List.length (sessions_of new)) = Z.max 0 1 /\
    (0 = 0 -> List.length (sessions_of new) = 1%nat).
Proof.
  apply (X21_sessions_of_a_readable_row Sample.uuid4 (KStr "2022-02-22")
           (Sample.day_value 3 0) 3 0 initial);
    vm_compute; reflexivity.
Defined.

(** The test of line 309 is made first, on any integers: with as many
    page views as sessions the first branch is chosen, although the test
    of line 319 holds too. *)
Lemma first_test_wins_ties (v s : Z) :
  1 <= s -> v = s ->
  v mod s = 0 /\ select_policy (VInt v) s = Ok OneEach.
Proof.
  intros Hs ->. split; [apply Z.mod_same; lia|].
  rewrite select_policy_spec by lia.
  now rewrite Z.div_same by lia.
Qed.

(** C8 (the code departs from it). The first test does win ties (5 page
    views and 5 sessions select the first branch), and 4 page views with
    2 sessions select the second. But a row that passes the second test
    is meant to yield 2 sessions, each followed by 2 page views: for a
    day holding that row, line 322 subscripts the day's list with
    ["dimensions"], the run ends with TypeError and yields nothing. *)
Theorem C8_even_split_row_raises :
  select_policy (VInt 5) 5 = Ok OneEach /\
  metrics (VList [Sample.api_row 4 2]) = Ok (VInt 4, VInt 2) /\
  select_policy (VInt 4) 2 = Ok SplitEqually /\
  __migrate_transform Sample.uuid4
    [(KStr "2022-02-22", VList [Sample.api_row 4 2])] = Raise TypeError.
Proof. repeat split; vm_compute; reflexivity. Qed.

(** X22. For a row with integer metrics, [v >= 0] page views, that is
    processed without an exception: with [v == s] the first branch is
    the one chosen, although the test of line 319 holds too, and the row
    adds [s] blocks of a session and one page view; when the test of
    line 319 holds and that of line 309 does not, the row adds [s]
    blocks, each a session followed by its [v / s] page views. *)
Theorem X22_branch_order_on_a_processed_row (uuid4 : nat -> N) (day : key) (row : val)
    (v sess : Z) (st st' : locals) :
  metrics row = Ok (VInt v, VInt sess) ->
  transform_item uuid4 (day, row) st = Ok st' ->
  0 <= v ->
  let s := Z.max sess 1 in
  (v = s ->
     v mod s = 0 /\
     select_policy (VInt v) s = Ok OneEach /\
     exists blocks,
       sql_inserts st' = sql_inserts st ++ List.concat blocks /\
       Z.of_nat (List.length blocks) = s /\
       Forall (session_block 1) blocks) /\
  (v mod s = 0 -> v / s <> 1 ->
     select_policy (VInt v) s = Ok SplitEqually /\
     exists blocks n,
       sql_inserts st' = sql_inserts st ++ List.concat blocks /\
       Z.of_nat (List.length blocks) = s /\
       Z.of_nat n = v / s /\
       Forall (session_block n) blocks).
Proof.
  intros Hm Hrun Hv s.
  destruct (transform_item_shaped _ _ _ _ _ Hrun)
    as (v' & sess' & pol & new & Hm' & Hpol & Hem & Hsh).
  rewrite Hm in Hm'. injection Hm' as <- <-. fold s in Hpol, Hsh.
  assert (Hs : s <> 0) by (subst s; lia).
  rewrite (select_policy_spec v s Hs) in Hpol.
  split.
  - intro Hvs. rewrite (select_policy_spec v s Hs).
    assert (Hq : v / s = 1) by (rewrite Hvs; apply Z.div_same; assumption).
    rewrite Hq in *. simpl in *. injection Hpol as <-.
    split; [rewrite Hvs; apply Z.mod_same; assumption|].
    split; [reflexivity|].
    destruct Hsh as [blocks [-> [Hlen HF]]].
    exists blocks. splits; auto; [apply Hem|].
    rewrite Hlen. unfold range. subst s. lia.
  - intros Hmod Hq. rewrite (select_policy_spec v s Hs).
    apply Z.eqb_neq in Hq. apply Z.eqb_eq in Hmod.
    rewrite Hq, Hmod in *. injection Hpol as <-.
    split; [reflexivity|].
    destruct Hsh as [blocks [-> [Hlen HF]]].
    exists blocks, (range (v / s)). splits; auto; [apply Hem| |].
    + rewrite Hlen. unfold range. subst s. lia.
    + unfold range. apply Z2Nat.id. apply Z.div_pos; subst s; lia.
Qed.

Lemma X22_branch_order_on_a_processed_row_witness :
  (exists st',
     transform_item Sample.uuid4 (KStr "2022-02-22", Sample.day_value 5 5) initial
       = Ok st' /\
     select_policy (VInt 5) 5 = Ok OneEach /\ 5 mod 5 = 0) /\
  (exists st',
     transform_item Sample.uuid4 (KStr "2022-02-22", Sample.day_value 4 2) initial
       = Ok st' /\
     select_policy (VInt 4) 2 = Ok SplitEqually /\
     exists blocks n,
       sql_inserts st' = sql_inserts initial ++ List.concat blocks /\
       Z.of_nat (List.length blocks) = 2 /\
       Z.of_nat n = 2 /\
       Forall (session_block n) blocks).
Proof.
  split.
  - eexists. split; [vm_compute; reflexivity|].
    refine (let H := proj1 (X22_branch_order_on_a_processed_row Sample.uuid4 (KStr "2022-02-22")
                              (Sample.day_value 5 5) 5 5 initial _ _ _ _) _ in
            conj (proj1 (proj2 H)) (proj1 H));
      first [ lia | vm_compute; reflexivity ].
  - eexists. split; [vm_compute; reflexivity|].
    refine (proj2 (X22_branch_order_on_a_processed_row Sample.uuid4 (KStr "2022-02-22")
                     (Sample.day_value 4 2) 4 2 initial _ _ _ _) _ _);
      first [ lia | vm_compute; reflexivity | vm_compute; discriminate ].
Defined.

(** A day whose value is a list, which is what [__migrate_extract] stores
    under each day, stops the run with an exception: line 307 reads
    [row[0]] and lines 311-314 read [row["dimensions"]] from the same
    object. *)
Lemma list_day_raises (uuid4 : nat -> N) (day : key) (l : list val)
    (st : locals) :
  exists e, transform_item uuid4 (day, VList l) st = Raise e.
Proof.
  unfold transform_item.
  destruct (metrics (VList l)) as [[pv s0]|e]; simpl; eauto.
  destruct (max1 s0) as [s|e] eqn:Hmax; simpl; eauto.
  destruct (select_policy pv s) as [pol|e]; simpl; eauto.
  destruct (max1_int _ _ Hmax) as [sess [_ ->]].
  assert (Hk : exists k, range (Z.max sess 1) = S k).
  { exists (Nat.pred (range (Z.max sess 1))). unfold range. lia. }
  destruct Hk as [k ->].
  destruct pol; simpl; eauto.
Qed.

Lemma list_day_stops_run (uuid4 : nat -> N) (rows : list (key * val))
    (day : key) (l : list val) :
  In (day, VList l) rows ->
  exists e, __migrate_transform uuid4 rows = Raise e.
Proof.
  intro Hin. unfold __migrate_transform.
  assert (H : forall st, exists e,
             for_each rows (transform_item uuid4) st = Raise e).
  { induction rows as [|item rows IH]; intro st; [contradiction|].
    simpl. destruct Hin as [-> | Hin].
    - destruct (list_day_raises uuid4 day l st) as [e ->]. simpl. eauto.
    - destruct (transform_item uuid4 item st) as [st1|e]; simpl; eauto. }
  destruct (H initial) as [e ->]. simpl. eauto.
Qed.

(** C9 (the code departs from it). Every row of a day is meant to be
    processed, in order. With the two rows of a day in a list, the run
    stops with TypeError at [row["dimensions"]] and returns nothing. With
    a day value that answers both subscripts, the run reads the metrics
    of entry 0 alone: one session and one page view come out, and the
    second row, with 2 page views, leaves no record. *)
Theorem C9_only_first_row_is_read :
  __migrate_transform Sample.uuid4 [(KStr "2022-02-22", Sample.two_rows_list)]
    = Raise TypeError /\
  exists out,
    __migrate_transform Sample.uuid4 [(KStr "2022-02-22", Sample.two_rows_dict)]
      = Ok out /\
    List.length (sessions_of out) = 1%nat /\
    List.length (page_views_of out) = 1%nat.
Proof.
  split; [vm_compute; reflexivity|].
  eexists. split; [vm_compute; reflexivity|]. repeat split.
Qed.

(** C10. Every Session and PageView of the output carries [website_id]
    1, and every Session the hostname "localhost", whatever the input. *)
Theorem C10_hardcoded_constants (uuid4 : nat -> N) (rows : list (key * val))
    (out : list entry) :
  __migrate_transform uuid4 rows = Ok out ->
  website_id = 1 /\ hostname = "localhost"%string /\
  (forall s, In (ESession s) out ->
     Session.website_id s = website_id /\ Session.hostname s = hostname) /\
  (forall p, In (EPageView p) out -> PageView.website_id p = website_id).
Proof.
  intro H. destruct (transform_output _ _ _ H) as (new & st & Hem & _ & ->).
  destruct Hem as (_ & _ & _ & _ & _ & C). rewrite Forall_forall in C.
  split; [reflexivity|]. split; [reflexivity|]. split.
  - intros s Hin. apply in_app_or in Hin.
    destruct Hin as [Hin | [Heq | []]]; [|discriminate].
    apply (C (ESession s) Hin).
  - intros p Hin. apply in_app_or in Hin.
    destruct Hin as [Hin | [Heq | []]]; [|discriminate].
    apply (C (EPageView p) Hin).
Qed.

Lemma C10_hardcoded_constants_witness :
  exists out,
    __migrate_transform Sample.uuid4
      [(KStr "2022-02-22", Sample.day_value 4 2);
       (KStr "2022-02-23", Sample.day_value 7 3)] = Ok out /\
    website_id = 1 /\ hostname = "localhost"%string /\
    (forall s, In (ESession s) out ->
       Session.website_id s = website_id /\ Session.hostname s = hostname) /\
    (forall p, In (EPageView p) out -> PageView.website_id p = website_id).
Proof.
  eexists. split; [vm_compute; reflexivity|].
  apply (C10_hardcoded_constants Sample.uuid4
           [(KStr "2022-02-22", Sample.day_value 4 2);
            (KStr "2022-02-23", Sample.day_value 7 3)]).
  vm_compute; reflexivity.
Defined.

(** ** Dicts *)

Lemma key_eqb_eq (a b : key) : key_eqb a b = true <-> a = b.
Proof.
  destruct a, b; simpl; split; intro H; try discriminate.
  - apply Z.eqb_eq in H. congruence.
  - injection H as ->. apply Z.eqb_refl.
  - apply String.eqb_eq in H. congruence.
  - injection H as ->. apply String.eqb_refl.
Qed.

Lemma key_eqb_neq (a b : key) : key_eqb a b = false <-> a <> b.
Proof.
  rewrite <- key_eqb_eq. destruct (key_eqb a b); split; congruence.
Qed.

Lemma lookup_setitem_same {A : Type} (k : key) (v : A) (d : list (key * A)) :
  lookup k (setitem k v d) = Some v.
Proof.
  induction d as [|[k' v'] d IH]; simpl.
  - now rewrite (proj2 (key_eqb_eq k k) eq_refl).
  - destruct (key_eqb k k') eqn:E; simpl; rewrite E; auto.
Qed.

Lemma lookup_setitem_other {A : Type} (k k' : key) (v : A) (d : list (key * A)) :
  k <> k' -> lookup k (setitem k' v d) = lookup k d.
Proof.
  intro Hne. induction d as [|[k0 v0] d IH]; simpl.
  - now rewrite (proj2 (key_eqb_neq k k') Hne).
  - destruct (key_eqb k' k0) eqn:E; simpl.
    + apply key_eqb_eq in E. subst k0.
      now rewrite (proj2 (key_eqb_neq k k') Hne).
    + destruct (key_eqb k k0); auto.
Qed.

Lemma setitem_keys {A : Type} (k k' : key) (v : A) (d : list (key * A)) :
  In k (map fst (setitem k' v d)) -> k = k' \/ In k (map fst d).
Proof.
  induction d as [|[k0 v0] d IH]; simpl.
  - intros [<- | []]. now left.
  - destruct (key_eqb k' k0); simpl; intros [<- | H]; auto.
    destruct (IH H); auto.
Qed.

(** ** The aggregator *)

Lemma date_ranges_days (strptime : string -> option Z) (strftime : Z -> string)
    (start_date end_date : string) (s e : Z) :
  strptime start_date = Some s ->
  strptime end_date = Some e ->
  _migrate_date_ranges strptime strftime start_date end_date
  = Ok (map (fun d => single_day (strftime d)) (upto s (range (e - s + 1)))).
Proof.
  intros Hs He. unfold _migrate_date_ranges. rewrite Hs, He. simpl.
  unfold upto. now rewrite map_map.
Qed.

Lemma upto_nth (a : Z) (n : nat) (i : Z) :
  0 <= i < Z.of_nat n -> nth_error (upto a n) (Z.to_nat i) = Some (a + i).
Proof.
  intro H. unfold upto.
  rewrite nth_error_map, nth_error_seq.
  destruct (Nat.ltb_spec (Z.to_nat i) n); [|lia].
  simpl. f_equal. lia.
Qed.

Lemma upto_In_inv (a x : Z) (n : nat) :
  In x (upto a n) -> a <= x < a + Z.of_nat n.
Proof.
  unfold upto. intro H. apply in_map_iff in H.
  destruct H as [i [<- Hi]]. apply in_seq in Hi. lia.
Qed.

(** The loop of [__migrate_extract] over single-day ranges whose fetches
    all succeed. *)
Lemma extract_loop (batchGet : request -> result val) (table_id : Z)
    (days : list string) :
  (forall k, In k days -> exists r, day_rows batchGet table_id k = Ok r) ->
  forall st0, exists st,
    for_each (map single_day days) (fetch_range batchGet table_id) st0 = Ok st /\
    sent st = sent st0 ++ map (fun k => body_for table_id (single_day k)) days /\
    (forall k, In k days ->
       of_option KeyError (lookup (KStr k) (rows st))
       = day_rows batchGet table_id k) /\
    (forall k, ~ In k days ->
       lookup (KStr k) (rows st) = lookup (KStr k) (rows st0)) /\
    (forall k, In k (map fst (rows st)) ->
       In k (map fst (rows st0)) \/ exists d, In d days /\ k = KStr d).
Proof.
  induction days as [|d days IH]; intros Hok st0.
  - exists st0. simpl. rewrite app_nil_r. splits; auto; contradiction.
  - destruct (Hok d (or_introl eq_refl)) as [r Hr].
    assert (Hstep : fetch_range batchGet table_id (single_day d) st0
                    = Ok (mkFetched (setitem (KStr d) r (rows st0))
                            (sent st0 ++ [body_for table_id (single_day d)]))).
    { unfold fetch_range. unfold day_rows in Hr. bind_inv Hr.
      rewrite Ha. simpl. rewrite Hr. reflexivity. }
    destruct (IH (fun k Hk => Hok k (or_intror Hk))
                 (mkFetched (setitem (KStr d) r (rows st0))
                    (sent st0 ++ [body_for table_id (single_day d)])))
      as (st & Hrun & Hsent & Hin & Hout & Hkeys).
    exists st. simpl in *. rewrite Hstep. simpl.
    splits; auto.
    + rewrite Hsent, <- app_assoc. reflexivity.
    + intros k [<- | Hk]; auto.
      destruct (in_dec string_dec d days) as [Hd | Hd]; auto.
      rewrite (Hout d Hd), lookup_setitem_same, Hr. reflexivity.
    + intros k Hk. rewrite Hout by tauto.
      apply lookup_setitem_other. intro E. injection E as ->. tauto.
    + intros k Hk. destruct (Hkeys k Hk) as [H | [d' [Hd' ->]]].
      * apply setitem_keys in H. destruct H as [-> | H]; eauto.
      * eauto.
Qed.

(** C7. For parsed dates [s <= e], [_migrate_date_ranges] returns one
    range per day of [s .. e], ascending, with both ends equal to that
    day; when the service answers for each of these days,
    [__migrate_extract] sends one request per day, in that order, each
    for the single range of the day, and stores the answer under the
    day's string and under no other key. *)
Theorem C7_one_range_and_fetch_per_day
    (strptime : string -> option Z) (strftime : Z -> string)
    (batchGet : request -> result val) (table_id : Z)
    (start_date end_date : string) (s e : Z) :
  strptime start_date = Some s ->
  strptime end_date = Some e ->
  s <= e ->
  (forall d, s <= d <= e ->
     exists r, day_rows batchGet table_id (strftime d) = Ok r) ->
  exists days date_ranges st,
    Z.of_nat (List.length days) = e - s + 1 /\
    (forall i, 0 <= i <= e - s -> nth_error days (Z.to_nat i) = Some (s + i)) /\
    _migrate_date_ranges strptime strftime start_date end_date = Ok date_ranges /\
    date_ranges = map (fun d => mkRange (strftime d) (strftime d)) days /\
    extract_run batchGet table_id date_ranges = Ok st /\
    __migrate_extract batchGet table_id date_ranges = Ok (rows st) /\
    sent st = map (fun d => body_for table_id (mkRange (strftime d) (strftime d)))
                  days /\
    (forall d, s <= d <= e ->
       of_option KeyError (lookup (KStr (strftime d)) (rows st))
       = day_rows batchGet table_id (strftime d)) /\
    (forall k, In k (map fst (rows st)) ->
       exists d, s <= d <= e /\ k = KStr (strftime d)).
Proof.
  intros Hs He Hle Hok.
  set (n := range (e - s + 1)).
  assert (Hn : Z.of_nat n = e - s + 1) by (unfold n, range; lia).
  destruct (extract_loop batchGet table_id (map strftime (upto s n)))
    with (st0 := mkFetched [] []) as (st & Hrun & Hsent & Hin & _ & Hkeys).
  { intros k Hk. apply in_map_iff in Hk. destruct Hk as [d [<- Hd]].
    apply Hok. apply upto_In_inv in Hd. lia. }
  rewrite map_map in Hrun. simpl in Hsent. rewrite map_map in Hsent.
  exists (upto s n), (map (fun d => single_day (strftime d)) (upto s n)), st.
  splits; auto.
  - now rewrite upto_length.
  - intros i Hi. apply upto_nth. lia.
  - now apply date_ranges_days.
  - unfold __migrate_extract, extract_run. rewrite Hrun. reflexivity.
  - intros d Hd. apply Hin. apply in_map. apply upto_In. lia.
  - intros k Hk. destruct (Hkeys k Hk) as [[] | [x [Hx ->]]].
    apply in_map_iff in Hx. destruct Hx as [d [<- Hd]].
    exists d. split; [|reflexivity]. apply upto_In_inv in Hd. lia.
Qed.

Lemma C7_one_range_and_fetch_per_day_witness :
  Calendar.strptime "2022-02-27" = Some 19050 /\
  Calendar.strptime "2022-03-02" = Some 19053 /\
  exists st,
    _migrate_date_ranges Calendar.strptime Calendar.strftime
      "2022-02-27" "2022-03-02"
    = Ok [mkRange "2022-02-27" "2022-02-27"; mkRange "2022-02-28" "2022-02-28";
          mkRange "2022-03-01" "2022-03-01"; mkRange "2022-03-02" "2022-03-02"] /\
    extract_run SampleService.batchGet 42
      [mkRange "2022-02-27" "2022-02-27"; mkRange "2022-02-28" "2022-02-28";
       mkRange "2022-03-01" "2022-03-01"; mkRange "2022-03-02" "2022-03-02"]
    = Ok st /\
    map dateRanges (sent st)
    = [[mkRange "2022-02-27" "2022-02-27"]; [mkRange "2022-02-28" "2022-02-28"];
       [mkRange "2022-03-01" "2022-03-01"]; [mkRange "2022-03-02" "2022-03-02"]] /\
    map fst (rows st)
    = [KStr "2022-02-27"; KStr "2022-02-28"; KStr "2022-03-01"; KStr "2022-03-02"].
Proof.
  split; [vm_compute; reflexivity|]. split; [vm_compute; reflexivity|].
  destruct (C7_one_range_and_fetch_per_day
              Calendar.strptime Calendar.strftime SampleService.batchGet 42
              "2022-02-27" "2022-03-02" 19050 19053)
    as (days & date_ranges & st & _ & _ & Hranges & _ & Hrun & _);
    try (vm_compute; reflexivity).
  - vm_compute. discriminate.
  - intros d _. eexists. reflexivity.
  - assert (E : date_ranges
                = [mkRange "2022-02-27" "2022-02-27"; mkRange "2022-02-28" "2022-02-28";
                   mkRange "2022-03-01" "2022-03-01"; mkRange "2022-03-02" "2022-03-02"]).
    { vm_compute in Hranges. now injection Hranges as <-. }
    subst date_ranges.
    exists st. split; [vm_compute; reflexivity|]. split; [assumption|].
    vm_compute in Hrun. injection Hrun as <-. split; reflexivity.
Defined.

(** * Further properties *)

(** ** What the records hold and where their UUIDs come from *)

Lemma for_range_rel {S : Type} (R : S -> S -> Prop) (body : S -> result S) :
  (forall st, R st st) ->
  (forall a b c, R a b -> R b c -> R a c) ->
  (forall st st', body st = Ok st' -> R st st') ->
  forall n st st', for_range n body st = Ok st' -> R st st'.
Proof.
  intros Hrefl Htrans Hbody n.
  induction n as [|n IH]; intros st st' H; simpl in H.
  - injection H as <-. apply Hrefl.
  - bind_inv H. eapply Htrans; eauto.
Qed.

Lemma grows_refl (uuid4 : nat -> N) (P : entry -> Prop) (st : locals) :
  grows uuid4 P st st.
Proof.
  exists []. simpl. rewrite app_nil_r, Nat.add_0_r. auto.
Qed.

Lemma grows_trans (uuid4 : nat -> N) (P : entry -> Prop) (a b c : locals) :
  grows uuid4 P a b -> grows uuid4 P b c -> grows uuid4 P a c.
Proof.
  intros (n1 & I1 & F1 & U1 & M1) (n2 & I2 & F2 & U2 & M2).
  exists (n1 ++ n2).
  rewrite sessions_of_app, length_app, map_app, seq_app, map_app.
  rewrite I2, I1, U2, U1, M1, M2, U1. splits.
  - now rewrite app_assoc.
  - now apply Forall_app.
  - lia.
  - reflexivity.
Qed.

Lemma grows_weaken (uuid4 : nat -> N) (P Q : entry -> Prop) (st st' : locals) :
  (forall e, P e -> Q e) -> grows uuid4 P st st' -> grows uuid4 Q st st'.
Proof.
  intros HPQ (new & I & F & U & M). exists new. splits; auto.
  apply Forall_impl with (2 := F). assumption.
Qed.

Section RecordFacts.

Variable uuid4 : nat -> N.

Lemma new_session_copied (row : val) (ts : string) (st : locals) (s : Session.t) :
  new_session uuid4 row ts st = Ok s ->
  copied row ts (ESession s) /\ Session.session_uuid s = uuid4 (uuid_calls st).
Proof.
  unfold new_session. intro H.
  repeat bind_inv H. injection H as <-. simpl. splits; auto.
Qed.

Lemma new_page_view_copied (row : val) (ts : string) (sid : Z) (st : locals)
    (p : PageView.t) :
  new_page_view row ts sid st = Ok p -> copied row ts (EPageView p).
Proof.
  unfold new_page_view. intro H.
  bind_inv H. injection H as <-. simpl. auto.
Qed.

Lemma session_and_view_grows (row : val) (ts : string) (st st' : locals) :
  session_and_view uuid4 row ts st = Ok st' ->
  grows uuid4 (copied row ts) st st'.
Proof.
  unfold session_and_view. intro H.
  bind_inv H. rename a into s. bind_inv H. rename a into p.
  injection H as <-.
  destruct (new_session_copied _ _ _ _ Ha) as [Hs Hu].
  pose proof (new_page_view_copied _ _ _ _ _ Ha0) as Hp.
  exists [ESession s; EPageView p]. simpl. splits; auto.
  - lia.
  - now rewrite Hu.
Qed.

Lemma view_only_grows (row : val) (ts : string) (sid : Z) (st st' : locals) :
  view_only row ts sid st = Ok st' ->
  grows uuid4 (copied row ts) st st'.
Proof.
  unfold view_only. intro H.
  bind_inv H. rename a into p. injection H as <-.
  pose proof (new_page_view_copied _ _ _ _ _ Ha) as Hp.
  exists [EPageView p]. simpl. splits; auto.
Qed.

Lemma session_with_views_grows (row : val) (ts : string) (pv : val) (s : Z)
    (st st' : locals) :
  session_with_views uuid4 row ts pv s st = Ok st' ->
  grows uuid4 (copied row ts) st st'.
Proof.
  unfold session_with_views. intro H.
  bind_inv H. rename a into se. bind_inv H. rename a into n.
  bind_inv H. rename a into st2. injection H as <-.
  destruct (new_session_copied _ _ _ _ Ha) as [Hs Hu].
  apply (for_range_rel (grows uuid4 (copied row ts))) in Ha1;
    [ | apply grows_refl | apply grows_trans
      | intros x y; apply view_only_grows ].
  apply grows_trans
    with (b := mkLocals (page_view_id st) (session_id st)
                 (sql_inserts st ++ [ESession se]) (S (uuid_calls st))).
  - exists [ESession se]. simpl. splits; auto.
    + lia.
    + now rewrite Hu.
  - destruct Ha1 as (new & I & F & U & M). exists new. simpl in *. auto.
Qed.

Lemma transform_item_grows (day : key) (row : val) (st st' : locals) :
  transform_item uuid4 (day, row) st = Ok st' ->
  grows uuid4 (copied row (timestamp_of day)) st st'.
Proof.
  unfold transform_item. fold (timestamp_of day). intro H.
  bind_inv H. destruct a as [pv s0]. bind_inv H. rename a into s.
  bind_inv H. rename a into pol.
  assert (Hrefl := grows_refl uuid4 (copied row (timestamp_of day))).
  assert (Htrans := grows_trans uuid4 (copied row (timestamp_of day))).
  destruct pol.
  - eapply for_range_rel; eauto. intros x y. apply session_and_view_grows.
  - eapply for_range_rel; eauto. intros x y. apply session_with_views_grows.
  - bind_inv H. rename a into st1. bind_inv H.
    apply Htrans with (b := st1).
    + eapply for_range_rel; eauto. intros x y. apply session_and_view_grows.
    + eapply for_range_rel; eauto. intros x y. apply view_only_grows.
Qed.

Lemma run_grows (rows all : list (key * val)) :
  incl rows all ->
  forall st st',
  for_each rows (transform_item uuid4) st = Ok st' ->
  grows uuid4
    (fun e => exists day row,
                In (day, row) all /\ copied row (timestamp_of day) e) st st'.
Proof.
  induction rows as [|[day row] rows IH]; intros Hincl st st' H; simpl in H.
  - injection H as <-. apply grows_refl.
  - bind_inv H. eapply grows_trans.
    + apply transform_item_grows in Ha.
      eapply grows_weaken with (2 := Ha).
      intros e He. exists day, row. split; [|assumption].
      apply Hincl. now left.
    + apply IH; [|assumption]. intros x Hx. apply Hincl. now right.
Qed.

End RecordFacts.

(** ** Page views and sessions of a row *)

Lemma div_one_iff (v s : Z) : 0 < s -> (v / s = 1 <-> s <= v < 2 * s).
Proof.
  intro Hs. split.
  - intro Hq. pose proof (Z.div_mod v s ltac:(lia)) as Hdm.
    pose proof (Z.mod_pos_bound v s Hs) as Hr. rewrite Hq in Hdm. lia.
  - intro H. symmetry. apply (Z.div_unique v s 1 (v - s)); lia.
Qed.

Lemma same_extension {A : Type} (l a b : list A) : l ++ a = l ++ b -> a = b.
Proof. apply app_inv_head. Qed.

Lemma upto_last (a : Z) (n : nat) :
  upto a (S n) = upto a n ++ [a + Z.of_nat n].
Proof.
  replace (S n) with (n + 1)%nat by lia. rewrite upto_app.
  unfold upto at 2. simpl. now rewrite Z.add_0_r.
Qed.

(** X1. A row with [v >= 0] page views and [s = max(sessions, 1)]
    sessions adds [s] page views when [v // s == 1], else [v] when [s]
    divides [v], else [max(v, s)]. *)
Theorem X1_page_views_of_a_row (uuid4 : nat -> N) (day : key) (row : val)
    (v sess : Z) (st st' : locals) :
  metrics row = Ok (VInt v, VInt sess) ->
  transform_item uuid4 (day, row) st = Ok st' ->
  0 <= v ->
  exists new,
    sql_inserts st' = sql_inserts st ++ new /\
    Z.of_nat (List.length (page_views_of new))
    = (if v / Z.max sess 1 =? 1 then Z.max sess 1
       else if v mod Z.max sess 1 =? 0 then v
       else Z.max v (Z.max sess 1)).
Proof. apply page_views_added. Qed.

Lemma X1_page_views_of_a_row_witness :
  exists st' new,
    transform_item Sample.uuid4 (KStr "2022-02-22", Sample.day_value 2 5) initial
      = Ok st' /\
    sql_inserts st' = sql_inserts initial ++ new /\
    Z.of_nat (List.length (page_views_of new)) = 5.
Proof.
  eexists. 
  assert (Hrun : transform_item Sample.uuid4
                   (KStr "2022-02-22", Sample.day_value 2 5) initial = Ok _)
    by (vm_compute; reflexivity).
  destruct (X1_page_views_of_a_row Sample.uuid4 (KStr "2022-02-22")
              (Sample.day_value 2 5) 2 5 initial _ eq_refl Hrun)
    as [new [Hnew Hcount]]; [lia|].
  exists new. split; [exact Hrun|]. split; [exact Hnew | exact Hcount].
Defined.

(** X2. The page views a row adds number exactly its [v >= 0] page
    views if and only if [s = max(sessions, 1)] divides [v] or
    [v >= 2 * s]. *)
Theorem X2_page_views_kept_iff (uuid4 : nat -> N) (day : key) (row : val)
    (v sess : Z) (st st' : locals) :
  metrics row = Ok (VInt v, VInt sess) ->
  transform_item uuid4 (day, row) st = Ok st' ->
  0 <= v ->
  exists new,
    sql_inserts st' = sql_inserts st ++ new /\
    (Z.of_nat (List.length (page_views_of new)) = v <->
     v mod Z.max sess 1 = 0 \/ 2 * Z.max sess 1 <= v).
Proof.
  intros Hm Hrun Hv.
  destruct (page_views_added _ _ _ _ _ _ _ Hm Hrun Hv) as [new [Hnew Hcount]].
  exists new. split; [assumption|]. rewrite Hcount.
  set (s := Z.max sess 1). assert (Hs : 0 < s) by (subst s; lia).
  pose proof (div_one_iff v s Hs) as Hone.
  pose proof (Z.div_mod v s ltac:(lia)) as Hdm.
  pose proof (Z.mod_pos_bound v s Hs) as Hr.
  destruct (v / s =? 1) eqn:Hq.
  - apply Z.eqb_eq in Hq. rewrite Hq in Hdm. lia.
  - apply Z.eqb_neq in Hq.
    destruct (v mod s =? 0) eqn:Hmod.
    + apply Z.eqb_eq in Hmod. tauto.
    + apply Z.eqb_neq in Hmod. lia.
Qed.

Lemma X2_page_views_kept_iff_witness :
  exists st' new,
    transform_item Sample.uuid4 (KStr "2022-02-22", Sample.day_value 7 3) initial
      = Ok st' /\
    sql_inserts st' = sql_inserts initial ++ new /\
    (Z.of_nat (List.length (page_views_of new)) = 7 <->
     7 mod Z.max 3 1 = 0 \/ 2 * Z.max 3 1 <= 7).
Proof.
  eexists.
  assert (Hrun : transform_item Sample.uuid4
                   (KStr "2022-02-22", Sample.day_value 7 3) initial = Ok _)
    by (vm_compute; reflexivity).
  destruct (X2_page_views_kept_iff Sample.uuid4 (KStr "2022-02-22")
              (Sample.day_value 7 3) 7 3 initial _ eq_refl Hrun)
    as [new [Hnew Hiff]]; [lia|].
  exists new. split; [exact Hrun|]. split; [exact Hnew | exact Hiff].
Defined.

(** X3. Under the last branch ([v // s != 1] and [s] does not divide
    [v]) a row adds [s] sessions, each followed by one page view of it,
    and then [max(v - s, 0)] page views that all carry the [session_id]
    of the last of these sessions. *)
Theorem X3_rest_goes_to_last_session (uuid4 : nat -> N) (day : key) (row : val)
    (v sess : Z) (st st' : locals) :
  metrics row = Ok (VInt v, VInt sess) ->
  transform_item uuid4 (day, row) st = Ok st' ->
  v / Z.max sess 1 <> 1 ->
  v mod Z.max sess 1 <> 0 ->
  exists blocks extras front last,
    sql_inserts st' = sql_inserts st ++ List.concat blocks ++ map EPageView extras /\
    Z.of_nat (List.length blocks) = Z.max sess 1 /\
    Forall (session_block 1) blocks /\
    Z.of_nat (List.length extras) = Z.max (v - Z.max sess 1) 0 /\
    sessions_of (List.concat blocks) = front ++ [last] /\
    Forall (fun p => PageView.session_id p = Session.session_id last) extras.
Proof.
  intros Hm Hrun Hq Hmod.
  set (s := Z.max sess 1) in *.
  assert (Hs : s <> 0) by (subst s; lia).
  unfold transform_item in Hrun. rewrite Hm in Hrun. simpl in Hrun.
  rewrite max1_max in Hrun. fold s in Hrun.
  rewrite (select_policy_spec v s Hs) in Hrun.
  apply Z.eqb_neq in Hq, Hmod. rewrite Hq, Hmod in Hrun. simpl in Hrun.
  bind_inv Hrun. rename a into st1.
  destruct (for_range_emits (session_and_view_emits uuid4 row _) _ _ _ Ha)
    as [blocks [Hem [Hlen HF]]].
  destruct (views_loop_emits _ _ _ _ _ _ Hrun) as [extras [Hex [Hn Hsid]]].
  destruct Hem as (I1 & S1 & _ & SI1 & _).
  rewrite (blocks_sessions _ _ HF), Hlen in S1, SI1.
  assert (Hk : exists k, range s = S k).
  { exists (Nat.pred (range s)). unfold range. subst s. lia. }
  destruct Hk as [k Hk]. rewrite Hk in SI1. rewrite upto_last in SI1.
  destruct (exists_last (l := sessions_of (List.concat blocks))) as [front [last Hlast]].
  { intro E. rewrite E in SI1. simpl in SI1.
    now apply app_cons_not_nil in SI1. }
  rewrite Hlast, map_app in SI1. simpl in SI1.
  apply app_inj_tail in SI1. destruct SI1 as [_ Hid].
  exists blocks, extras, front, last. splits; auto.
  - destruct Hex as (-> & _). rewrite I1. now rewrite app_assoc.
  - rewrite Hlen. unfold range. subst s. lia.
  - rewrite Hn. unfold range. lia.
  - apply Forall_impl with (2 := Hsid). intros p ->.
    rewrite Hid, S1, Hk. lia.
Qed.

Lemma X3_rest_goes_to_last_session_witness :
  exists st' blocks extras front last,
    transform_item Sample.uuid4 (KStr "2022-02-22", Sample.day_value 7 3) initial
      = Ok st' /\
    sql_inserts st'
      = sql_inserts initial ++ List.concat blocks ++ map EPageView extras /\
    Z.of_nat (List.length blocks) = Z.max 3 1 /\
    Forall (session_block 1) blocks /\
    Z.of_nat (List.length extras) = Z.max (7 - Z.max 3 1) 0 /\
    sessions_of (List.concat blocks) = front ++ [last] /\
    Forall (fun p => PageView.session_id p = Session.session_id last) extras.
Proof.
  eexists.
  assert (Hrun : transform_item Sample.uuid4
                   (KStr "2022-02-22", Sample.day_value 7 3) initial = Ok _)
    by (vm_compute; reflexivity).
  destruct (X3_rest_goes_to_last_session Sample.uuid4 (KStr "2022-02-22")
              (Sample.day_value 7 3) 7 3 initial _ eq_refl Hrun)
    as (blocks & extras & front & last & H);
    [vm_compute; discriminate | vm_compute; discriminate |].
  exists blocks, extras, front, last. split; [exact Hrun | exact H].
Defined.

(** X4. A row with at least one page view adds its [s = max(sessions, 1)]
    sessions in blocks of one size [n >= 1]: every session is followed at
    once by [n] page views of it. Page views that follow the blocks belong
    to a session of the blocks. *)
Theorem X4_every_session_has_a_page_view (uuid4 : nat -> N) (day : key)
    (row : val) (v sess : Z) (st st' : locals) :
  metrics row = Ok (VInt v, VInt sess) ->
  transform_item uuid4 (day, row) st = Ok st' ->
  1 <= v ->
  exists n blocks extras,
    (1 <= n)%nat /\
    sql_inserts st' = sql_inserts st ++ List.concat blocks ++ map EPageView extras /\
    Z.of_nat (List.length blocks) = Z.max sess 1 /\
    Forall (session_block n) blocks /\
    Forall (fun p => In (PageView.session_id p)
                        (map Session.session_id
                             (sessions_of (List.concat blocks)))) extras.
Proof.
  intros Hm Hrun Hv.
  destruct (transform_item_shaped _ _ _ _ _ Hrun)
    as (v' & sess' & pol & new & Hm' & Hpol & Hem & Hsh).
  rewrite Hm in Hm'. injection Hm' as <- <-.
  set (s := Z.max sess 1) in *.
  assert (Hs : s <> 0) by (subst s; lia).
  assert (Hlen : forall k : nat, k = range s -> Z.of_nat k = s)
    by (intros k ->; unfold range; subst s; lia).
  rewrite (select_policy_spec v s Hs) in Hpol.
  destruct Hem as (I & _).
  destruct (v / s =? 1) eqn:Hq; [|destruct (v mod s =? 0) eqn:Hmod];
    injection Hpol as <-; simpl in Hsh.
  - destruct Hsh as [blocks [-> [Hl HF]]].
    exists 1%nat, blocks, []. simpl. rewrite app_nil_r. splits; auto.
  - destruct Hsh as [blocks [-> [Hl HF]]].
    exists (range (v / s)), blocks, []. simpl. rewrite app_nil_r. splits; auto.
    apply Z.eqb_eq in Hmod.
    pose proof (Z.div_mod v s Hs) as Hdm. rewrite Hmod in Hdm.
    assert (0 < v / s) by nia. unfold range. lia.
  - destruct Hsh as [blocks [extras [-> [Hl [HF [_ Hex]]]]]].
    exists 1%nat, blocks, extras. splits; auto.
Qed.

Lemma X4_every_session_has_a_page_view_witness :
  exists st' n blocks extras,
    transform_item Sample.uuid4 (KStr "2022-02-22", Sample.day_value 4 2) initial
      = Ok st' /\
    (1 <= n)%nat /\
    sql_inserts st'
      = sql_inserts initial ++ List.concat blocks ++ map EPageView extras /\
    Z.of_nat (List.length blocks) = Z.max 2 1 /\
    Forall (session_block n) blocks /\
    Forall (fun p => In (PageView.session_id p)
                        (map Session.session_id
                             (sessions_of (List.concat blocks)))) extras.
Proof.
  eexists.
  assert (Hrun : transform_item Sample.uuid4
                   (KStr "2022-02-22", Sample.day_value 4 2) initial = Ok _)
    by (vm_compute; reflexivity).
  destruct (X4_every_session_has_a_page_view Sample.uuid4 (KStr "2022-02-22")
              (Sample.day_value 4 2) 4 2 initial _ eq_refl Hrun)
    as (n & blocks & extras & H); [lia|].
  exists n, blocks, extras. split; [exact Hrun | exact H].
Defined.

(** X5. A row with 0 page views is processed like any other: it adds
    [max(sessions, 1)] sessions, and no page view at all. *)
Theorem X5_sessions_without_page_views (uuid4 : nat -> N) (day : key)
    (row : val) (sess : Z) (st st' : locals) :
  metrics row = Ok (VInt 0, VInt sess) ->
  transform_item uuid4 (day, row) st = Ok st' ->
  exists new,
    sql_inserts st' = sql_inserts st ++ new /\
    Z.of_nat (List.length (sessions_of new)) = Z.max sess 1 /\
    page_views_of new = [].
Proof.
  intros Hm Hrun.
  destruct (transform_item_shaped _ _ _ _ _ Hrun)
    as (v' & sess' & pol & new & Hm' & Hpol & Hem & Hsh).
  rewrite Hm in Hm'. injection Hm' as <- <-.
  assert (Hs : Z.max sess 1 <> 0) by lia.
  rewrite (select_policy_spec 0 _ Hs) in Hpol.
  rewrite Z.div_0_l, Z.mod_0_l in Hpol by assumption. simpl in Hpol.
  injection Hpol as <-.
  exists new. split; [apply Hem|]. split.
  - rewrite (shaped_sessions _ _ _ _ Hsh). unfold range. lia.
  - apply length_zero_iff_nil.
    rewrite (shaped_page_views _ _ _ _ Hsh).
    rewrite Z.div_0_l by assumption. unfold range. simpl. lia.
Qed.

Lemma X5_sessions_without_page_views_witness :
  exists st' new,
    transform_item Sample.uuid4 (KStr "2022-02-22", Sample.day_value 0 2) initial
      = Ok st' /\
    sql_inserts st' = sql_inserts initial ++ new /\
    Z.of_nat (List.length (sessions_of new)) = Z.max 2 1 /\
    page_views_of new = [].
Proof.
  eexists.
  assert (Hrun : transform_item Sample.uuid4
                   (KStr "2022-02-22", Sample.day_value 0 2) initial = Ok _)
    by (vm_compute; reflexivity).
  destruct (X5_sessions_without_page_views Sample.uuid4 (KStr "2022-02-22")
              (Sample.day_value 0 2) 2 initial _ eq_refl Hrun)
    as (new & H).
  exists new. split; [exact Hrun | exact H].
Defined.

(** ** The output as a whole *)

Lemma transform_grows (uuid4 : nat -> N) (rows : list (key * val))
    (out : list entry) :
  __migrate_transform uuid4 rows = Ok out ->
  exists new pv sid,
    out = new ++ [EStr (setval_statements pv sid)] /\
    Forall (fun e => exists day row,
                       In (day, row) rows /\ copied row (timestamp_of day) e) new /\
    map Session.session_uuid (sessions_of new)
      = map uuid4 (seq 0 (List.length (sessions_of new))).
Proof.
  unfold __migrate_transform. intro H. bind_inv H. rename a into st.
  injection H as <-.
  destruct (run_grows uuid4 rows rows (incl_refl rows) _ _ Ha)
    as (new & I & F & _ & M).
  simpl in I, M. exists new, (page_view_id st), (session_id st).
  rewrite I. auto.
Qed.

Lemma hardcoded_length (l : list entry) :
  Forall hardcoded l ->
  List.length l
  = (List.length (sessions_of l) + List.length (page_views_of l))%nat.
Proof.
  induction 1 as [|e l He _ IH]; simpl; auto.
  destruct e; simpl in *; try contradiction; lia.
Qed.

(** X6. Every Session and PageView of the output was made for a day of
    the input: it carries that day's timestamp and the values that
    [row["dimensions"]] holds for that day, the session those of indices
    1 to 6 and the page view that of index 0. *)
Theorem X6_records_copy_their_row (uuid4 : nat -> N) (rows : list (key * val))
    (out : list entry) (e : entry) :
  __migrate_transform uuid4 rows = Ok out ->
  In e out ->
  (exists s, e = EStr s) \/
  (exists day row, In (day, row) rows /\ copied row (timestamp_of day) e).
Proof.
  intros H Hin.
  destruct (transform_grows _ _ _ H) as (new & pv & sid & -> & F & _).
  apply in_app_or in Hin. destruct Hin as [Hin | [<- | []]].
  - right. rewrite Forall_forall in F. now apply F.
  - left. eauto.
Qed.

Lemma X6_records_copy_their_row_witness :
  exists out e,
    __migrate_transform Sample.uuid4
      [(KStr "2022-02-22", Sample.day_value 4 2);
       (KStr "2022-02-23", Sample.day_value 7 3)] = Ok out /\
    nth_error out 6 = Some e /\
    ((exists s, e = EStr s) \/
     (exists day row,
        In (day, row) [(KStr "2022-02-22", Sample.day_value 4 2);
                       (KStr "2022-02-23", Sample.day_value 7 3)] /\
        copied row (timestamp_of day) e)).
Proof.
  eexists. eexists.
  split; [vm_compute; reflexivity|].
  split; [vm_compute; reflexivity|].
  apply (X6_records_copy_their_row Sample.uuid4
           [(KStr "2022-02-22", Sample.day_value 4 2);
            (KStr "2022-02-23", Sample.day_value 7 3)] _ _
           ltac:(vm_compute; reflexivity)).
  do 6 right. left. reflexivity.
Defined.

(** X7. The sessions of the output carry the results of the successive
    calls of [uuid.uuid4()], one call per session, in emission order; so
    they are pairwise distinct when the draws are. *)
Theorem X7_one_uuid_draw_per_session (uuid4 : nat -> N)
    (rows : list (key * val)) (out : list entry) :
  __migrate_transform uuid4 rows = Ok out ->
  map Session.session_uuid (sessions_of out)
    = map uuid4 (seq 0 (List.length (sessions_of out))) /\
  ((forall i j, uuid4 i = uuid4 j -> i = j) ->
   NoDup (map Session.session_uuid (sessions_of out))).
Proof.
  intro H.
  destruct (transform_grows _ _ _ H) as (new & pv & sid & -> & _ & M).
  rewrite sessions_of_app. simpl. rewrite app_nil_r.
  split; [assumption|].
  intro Hinj. rewrite M. apply Injective_map_NoDup; [exact Hinj | apply seq_NoDup].
Qed.

Lemma X7_one_uuid_draw_per_session_witness :
  exists out,
    __migrate_transform Sample.uuid4
      [(KStr "2022-02-22", Sample.day_value 4 2);
       (KStr "2022-02-23", Sample.day_value 7 3)] = Ok out /\
    map Session.session_uuid (sessions_of out) = [0; 1; 2; 3; 4]%N /\
    NoDup (map Session.session_uuid (sessions_of out)).
Proof.
  eexists. split; [vm_compute; reflexivity|].
  destruct (X7_one_uuid_draw_per_session Sample.uuid4
              [(KStr "2022-02-22", Sample.day_value 4 2);
               (KStr "2022-02-23", Sample.day_value 7 3)] _
              ltac:(vm_compute; reflexivity)) as [Hmap Hnd].
  split; [reflexivity|].
  apply Hnd. unfold Sample.uuid4. intros i j Hij. lia.
Defined.

(** X8. The output of a run is its Session and PageView records followed
    by a single string, the two [setval] statements joined, whose numbers
    are one more than the count of page views and one more than the count
    of sessions. *)
Theorem X8_output_layout (uuid4 : nat -> N) (rows : list (key * val))
    (out : list entry) :
  __migrate_transform uuid4 rows = Ok out ->
  exists records,
    out = records ++
          [EStr (setval_statements
                   (1 + Z.of_nat (List.length (page_views_of records)))
                   (1 + Z.of_nat (List.length (sessions_of records))))] /\
    strings_of records = [] /\
    List.length records
    = (List.length (sessions_of records)
       + List.length (page_views_of records))%nat.
Proof.
  intro H. destruct (transform_output _ _ _ H) as (new & st & Hem & _ & ->).
  destruct Hem as (_ & S & V & _ & _ & C). simpl in S, V.
  exists new. rewrite S, V. splits; auto.
  - now apply hardcoded_no_string.
  - now apply hardcoded_length.
Qed.

Lemma X8_output_layout_witness :
  exists out records,
    __migrate_transform Sample.uuid4 [(KStr "2022-02-22", Sample.day_value 4 2)]
      = Ok out /\
    out = records ++
          [EStr (setval_statements
                   (1 + Z.of_nat (List.length (page_views_of records)))
                   (1 + Z.of_nat (List.length (sessions_of records))))] /\
    strings_of records = [] /\
    List.length records
    = (List.length (sessions_of records)
       + List.length (page_views_of records))%nat.
Proof.
  eexists.
  assert (Hrun : __migrate_transform Sample.uuid4
                   [(KStr "2022-02-22", Sample.day_value 4 2)] = Ok _)
    by (vm_compute; reflexivity).
  destruct (X8_output_layout Sample.uuid4 _ _ Hrun) as [records H].
  exists records. split; [exact Hrun | exact H].
Defined.

(** X9. When the value of some day is a list, the run ends with an
    exception and returns nothing, whatever the other days hold. *)
Theorem X9_list_valued_day_raises (uuid4 : nat -> N) (rows : list (key * val))
    (day : key) (l : list val) :
  In (day, VList l) rows ->
  exists e, __migrate_transform uuid4 rows = Raise e.
Proof. apply list_day_stops_run. Qed.

Lemma X9_list_valued_day_raises_witness :
  exists e,
    __migrate_transform Sample.uuid4
      [(KStr "2022-02-22", Sample.day_value 4 2);
       (KStr "2022-02-23", VList [Sample.api_row 7 3])] = Raise e.
Proof.
  apply (X9_list_valued_day_raises Sample.uuid4 _ (KStr "2022-02-23")
           [Sample.api_row 7 3]).
  right. left. reflexivity.
Defined.

(** X10. A row is processed without an exception only if
    [row["dimensions"]] can be read at each of the indices 1 to 6: at
    least one Session is made for it. *)
Theorem X10_dimensions_needed_for_success (uuid4 : nat -> N) (day : key)
    (row : val) (st st' : locals) :
  transform_item uuid4 (day, row) st = Ok st' ->
  forall k, 1 <= k <= 6 -> exists d, dimensions row k = Ok d.
Proof.
  intro Hrun.
  destruct (transform_item_shaped _ _ _ _ _ Hrun)
    as (v & sess & pol & new & Hm & _ & Hem & Hsh).
  destruct (transform_item_grows _ _ _ _ _ Hrun) as (new' & I' & F & _).
  destruct Hem as (I & _). rewrite I in I'. apply same_extension in I'.
  subst new'.
  pose proof (shaped_sessions _ _ _ _ Hsh) as Hlen.
  destruct (sessions_of new) as [|s ss] eqn:Hss.
  { simpl in Hlen. unfold range in Hlen. lia. }
  assert (Hin : In (ESession s) new).
  { assert (Hs : In s (sessions_of new)) by (rewrite Hss; now left).
    unfold sessions_of in Hs. apply in_flat_map in Hs.
    destruct Hs as [e [He Hs]]. destruct e; simpl in Hs; try contradiction.
    destruct Hs as [-> | []]. assumption. }
  rewrite Forall_forall in F. specialize (F _ Hin). simpl in F.
  destruct F as (_ & D1 & D2 & D3 & D4 & D5 & D6).
  intros k Hk.
  assert (Hcases : k = 1 \/ k = 2 \/ k = 3 \/ k = 4 \/ k = 5 \/ k = 6) by lia.
  destruct Hcases as [-> | [-> | [-> | [-> | [-> | ->]]]]]; eauto.
Qed.

Lemma X10_dimensions_needed_for_success_witness :
  Forall (fun k => exists d, dimensions (Sample.day_value 4 2) k = Ok d)
         [1; 2; 3; 4; 5; 6].
Proof.
  pose proof (X10_dimensions_needed_for_success Sample.uuid4 (KStr "2022-02-22")
                (Sample.day_value 4 2) initial _
                ltac:(vm_compute; reflexivity)) as H.
  repeat (apply Forall_cons; [apply H; lia|]). apply Forall_nil.
Defined.

(** X11. When the two metrics unpack and [sessions] is a string, [None],
    a list or a dict, or [sessions] is an integer and [page_views] is one
    of these, the row stops the run with TypeError: at [max(sessions, 1)]
    or at [page_views // sessions]. The sample row of line 291 holds
    strings. *)
Theorem X11_non_numeric_metrics_raise (uuid4 : nat -> N) (day : key)
    (row pv s0 : val) (st : locals) :
  metrics row = Ok (pv, s0) ->
  not_a_number s0 \/ ((exists z, s0 = VInt z) /\ not_a_number pv) ->
  transform_item uuid4 (day, row) st = Raise TypeError.
Proof.
  intros Hm Hnot. unfold transform_item. rewrite Hm. simpl.
  destruct Hnot as [Hs | [[z ->] Hp]].
  - destruct s0; simpl in Hs; try contradiction; reflexivity.
  - simpl. unfold select_policy.
    destruct pv; simpl in Hp; try contradiction; reflexivity.
Qed.

Lemma X11_non_numeric_metrics_raise_witness :
  transform_item Sample.uuid4
    (KStr "2022-02-22",
     VDict [(KInt 0, VDict [(KStr "metrics",
                             VList [VDict [(KStr "values",
                                            VList [VStr "4"; VStr "1"])]])]);
            (KStr "dimensions", Sample.dims)])
    initial
  = Raise TypeError.
Proof.
  apply (X11_non_numeric_metrics_raise Sample.uuid4 _ _ (VStr "4") (VStr "1")).
  - reflexivity.
  - left. exact I.
Defined.

(** ** More on the aggregator *)

Lemma fetch_range_Ok (batchGet : request -> result val) (table_id : Z)
    (r : date_range) (v : val) (st : fetched) :
  bind (batchGet (body_for table_id r)) response_rows = Ok v ->
  fetch_range batchGet table_id r st
  = Ok (mkFetched (setitem (KStr (startDate r)) v (rows st))
          (sent st ++ [body_for table_id r])).
Proof.
  intro H. unfold fetch_range. bind_inv H. rewrite Ha. simpl.
  rewrite H. reflexivity.
Qed.

Lemma fetch_range_Raise (batchGet : request -> result val) (table_id : Z)
    (r : date_range) (e : exn) (st : fetched) :
  bind (batchGet (body_for table_id r)) response_rows = Raise e ->
  fetch_range batchGet table_id r st = Raise e.
Proof.
  intro H. unfold fetch_range. cbv zeta.
  destruct (batchGet (body_for table_id r)) as [response|e']; simpl in *.
  - rewrite H. reflexivity.
  - injection H as ->. reflexivity.
Qed.

Lemma setitem_fresh {A : Type} (k : key) (v : A) (d : list (key * A)) :
  ~ In k (map fst d) -> setitem k v d = d ++ [(k, v)].
Proof.
  induction d as [|[k' v'] d IH]; simpl; intro Hnot; auto.
  destruct (key_eqb k k') eqn:E.
  - apply key_eqb_eq in E. subst. tauto.
  - f_equal. apply IH. tauto.
Qed.

Lemma setitem_NoDup {A : Type} (k : key) (v : A) (d : list (key * A)) :
  NoDup (map fst d) -> NoDup (map fst (setitem k v d)).
Proof.
  induction d as [|[k' v'] d IH]; simpl; intro Hnd.
  - constructor; [tauto | constructor].
  - inversion Hnd as [|x xs Hnot Hnd']; subst.
    destruct (key_eqb k k') eqn:E; simpl.
    + constructor; assumption.
    + constructor; [|auto].
      intro Hin. apply setitem_keys in Hin. destruct Hin as [-> | Hin]; auto.
      rewrite (proj2 (key_eqb_eq k k) eq_refl) in E. discriminate.
Qed.

Lemma setitem_length {A : Type} (k : key) (v : A) (d : list (key * A)) :
  (List.length (setitem k v d) <= S (List.length d))%nat.
Proof.
  induction d as [|[k' v'] d IH]; simpl; auto.
  destruct (key_eqb k k'); simpl; lia.
Qed.

Lemma lookup_In {A : Type} (k : key) (v : A) (d : list (key * A)) :
  lookup k d = Some v -> In (k, v) d.
Proof.
  induction d as [|[k' v'] d IH]; simpl; [discriminate|].
  destruct (key_eqb k k') eqn:E.
  - intro H. injection H as ->. apply key_eqb_eq in E. subst. now left.
  - intro H. right. auto.
Qed.

Lemma date_ranges_empty (strptime : string -> option Z)
    (strftime : Z -> string) (start_date end_date : string) (s e : Z) :
  strptime start_date = Some s ->
  strptime end_date = Some e ->
  e < s ->
  _migrate_date_ranges strptime strftime start_date end_date = Ok [].
Proof.
  intros Hs He Hlt. unfold _migrate_date_ranges. rewrite Hs, He. simpl.
  unfold range. replace (Z.to_nat (e - s + 1)) with 0%nat by lia. reflexivity.
Qed.

(** X12. When both dates parse and the end date is before the start
    date, [_migrate_date_ranges] raises nothing and returns no range. *)
Theorem X12_inverted_dates_give_no_range (strptime : string -> option Z)
    (strftime : Z -> string) (start_date end_date : string) (s e : Z) :
  strptime start_date = Some s ->
  strptime end_date = Some e ->
  e < s ->
  _migrate_date_ranges strptime strftime start_date end_date = Ok [].
Proof. apply date_ranges_empty. Qed.

Lemma X12_inverted_dates_give_no_range_witness :
  _migrate_date_ranges Calendar.strptime Calendar.strftime
    "2022-03-02" "2022-02-27" = Ok [].
Proof.
  apply (X12_inverted_dates_give_no_range Calendar.strptime Calendar.strftime
           "2022-03-02" "2022-02-27" 19053 19050);
    [vm_compute; reflexivity | vm_compute; reflexivity | lia].
Defined.

(** X13. When the service answers the first ranges and fails on the
    next one (the request raises, or its answer lacks one of [reports],
    [data], [rows]), [__migrate_extract] raises that exception: the rows
    fetched so far are not returned, and the later ranges do not matter. *)
Theorem X13_first_failure_aborts_extract (batchGet : request -> result val)
    (table_id : Z) (before after : list date_range) (r : date_range) (e : exn) :
  Forall (fun r' => exists v,
            bind (batchGet (body_for table_id r')) response_rows = Ok v) before ->
  bind (batchGet (body_for table_id r)) response_rows = Raise e ->
  __migrate_extract batchGet table_id (before ++ r :: after) = Raise e.
Proof.
  intros Hbefore Hr. unfold __migrate_extract, extract_run.
  assert (H : forall st,
             for_each (before ++ r :: after) (fetch_range batchGet table_id) st
             = Raise e).
  { induction Hbefore as [|r' before [v Hv] _ IH]; intro st; simpl.
    - now rewrite (fetch_range_Raise _ _ _ _ _ Hr).
    - rewrite (fetch_range_Ok _ _ _ _ _ Hv). simpl. apply IH. }
  rewrite H. reflexivity.
Qed.

Lemma X13_first_failure_aborts_extract_witness :
  __migrate_extract SampleService.batchGet_gap 42
    ([mkRange "2022-02-27" "2022-02-27"; mkRange "2022-02-28" "2022-02-28"]
     ++ mkRange "2022-03-01" "2022-03-01" :: [mkRange "2022-03-02" "2022-03-02"])
  = Raise KeyError.
Proof.
  apply (X13_first_failure_aborts_extract SampleService.batchGet_gap 42).
  - repeat constructor; eexists; reflexivity.
  - reflexivity.
Defined.

(** X14. When the start dates of the ranges are pairwise distinct and
    every fetch answers, [__migrate_extract] sends one request per range
    in order and returns one entry per range, in the order of the ranges,
    keyed by the start date and holding the rows fetched for that range. *)
Theorem X14_extract_keeps_range_order (batchGet : request -> result val)
    (table_id : Z) (date_ranges : list date_range) :
  NoDup (map startDate date_ranges) ->
  Forall (fun r => exists v,
            bind (batchGet (body_for table_id r)) response_rows = Ok v)
         date_ranges ->
  exists st,
    extract_run batchGet table_id date_ranges = Ok st /\
    __migrate_extract batchGet table_id date_ranges = Ok (rows st) /\
    sent st = map (body_for table_id) date_ranges /\
    Forall2 (fun r kv =>
               fst kv = KStr (startDate r) /\
               bind (batchGet (body_for table_id r)) response_rows = Ok (snd kv))
            date_ranges (rows st).
Proof.
  intros Hnd Hok.
  assert (H : forall st0,
             (forall r, In r date_ranges ->
                        ~ In (KStr (startDate r)) (map fst (rows st0))) ->
             exists new,
               for_each date_ranges (fetch_range batchGet table_id) st0
               = Ok (mkFetched (rows st0 ++ new)
                       (sent st0 ++ map (body_for table_id) date_ranges)) /\
               Forall2 (fun r kv =>
                          fst kv = KStr (startDate r) /\
                          bind (batchGet (body_for table_id r)) response_rows
                          = Ok (snd kv))
                       date_ranges new).
  { induction date_ranges as [|r rs IH]; intros st0 Hfresh; simpl.
    - exists []. rewrite !app_nil_r. destruct st0. split; [reflexivity | constructor].
    - inversion Hnd as [|x xs Hnot Hnd']; subst.
      inversion Hok as [|x xs [v Hv] Hok']; subst.
      rewrite (fetch_range_Ok _ _ _ _ _ Hv). simpl.
      rewrite setitem_fresh by (apply Hfresh; now left).
      destruct (IH Hnd' Hok'
                  (mkFetched (rows st0 ++ [(KStr (startDate r), v)])
                     (sent st0 ++ [body_for table_id r])))
        as [new [Hrun HF]].
      { intros r' Hr'. simpl. rewrite map_app, in_app_iff. simpl.
        intros [Hin | [Heq | []]].
        - apply (Hfresh r'); [now right | assumption].
        - injection Heq as Heq. apply Hnot. rewrite Heq. now apply in_map. }
      simpl in Hrun. exists ((KStr (startDate r), v) :: new). split.
      + rewrite Hrun. now rewrite <- !app_assoc.
      + constructor; auto. }
  destruct (H (mkFetched [] [])) as [new [Hrun HF]]; [intros ? ? []|].
  simpl in Hrun. exists (mkFetched new (map (body_for table_id) date_ranges)).
  unfold __migrate_extract, extract_run. rewrite Hrun. simpl. auto.
Qed.

Lemma X14_extract_keeps_range_order_witness :
  exists st,
    extract_run SampleService.batchGet 42
      [mkRange "2022-02-28" "2022-02-28"; mkRange "2022-03-01" "2022-03-01"]
    = Ok st /\
    map fst (rows st) = [KStr "2022-02-28"; KStr "2022-03-01"].
Proof.
  destruct (X14_extract_keeps_range_order SampleService.batchGet 42
              [mkRange "2022-02-28" "2022-02-28"; mkRange "2022-03-01" "2022-03-01"])
    as (st & Hrun & _ & _ & HF).
  - repeat constructor; simpl; intuition discriminate.
  - repeat constructor; eexists; reflexivity.
  - exists st. split; [exact Hrun|].
    destruct (rows st) as [|kv1 l]; inversion HF as [|? ? ? ? [K1 _] HF1]; subst.
    destruct l as [|kv2 l]; inversion HF1 as [|? ? ? ? [K2 _] HF2]; subst.
    inversion HF2; subst. simpl. now rewrite K1, K2.
Defined.

(** X15. Whatever the ranges, the keys of the dict [__migrate_extract]
    returns are pairwise distinct, each the start date of one of the
    ranges, and there are at most as many as ranges: ranges that share a
    start date share one entry, while a request is sent for each. *)
Theorem X15_extract_keys (batchGet : request -> result val) (table_id : Z)
    (date_ranges : list date_range) (st : fetched) :
  extract_run batchGet table_id date_ranges = Ok st ->
  NoDup (map fst (rows st)) /\
  (forall k, In k (map fst (rows st)) ->
     exists r, In r date_ranges /\ k = KStr (startDate r)) /\
  (List.length (rows st) <= List.length date_ranges)%nat /\
  List.length (sent st) = List.length date_ranges.
Proof.
  unfold extract_run.
  assert (H : forall st0 st1,
             for_each date_ranges (fetch_range batchGet table_id) st0 = Ok st1 ->
             NoDup (map fst (rows st0)) ->
             NoDup (map fst (rows st1)) /\
             (forall k, In k (map fst (rows st1)) ->
                In k (map fst (rows st0)) \/
                exists r, In r date_ranges /\ k = KStr (startDate r)) /\
             (List.length (rows st1)
              <= List.length (rows st0) + List.length date_ranges)%nat /\
             List.length (sent st1)
             = (List.length (sent st0) + List.length date_ranges)%nat).
  { induction date_ranges as [|r rs IH]; intros st0 st1 Hrun Hnd; simpl in Hrun.
    - injection Hrun as <-. simpl. splits; auto; try lia.
    - bind_inv Hrun. unfold fetch_range in Ha. bind_inv Ha. bind_inv Ha.
      injection Ha as <-.
      destruct (IH _ _ Hrun) as (N & K & L & S'); simpl.
      { now apply setitem_NoDup. }
      simpl in *. splits; auto.
      + intros k Hk. destruct (K k Hk) as [Hin | [r' [Hr' ->]]]; eauto.
        apply setitem_keys in Hin. destruct Hin as [-> | Hin]; eauto.
      + pose proof (setitem_length (KStr (startDate r)) a1 (rows st0)). lia.
      + rewrite S', length_app. simpl. lia. }
  intro Hrun. destruct (H _ _ Hrun) as (N & K & L & S'); [constructor|].
  simpl in *. splits; auto.
  intros k Hk. destruct (K k Hk) as [[] | ?]; assumption.
Qed.

Lemma X15_extract_keys_witness :
  exists st,
    extract_run SampleService.batchGet 42
      [mkRange "2022-02-28" "2022-02-28"; mkRange "2022-02-28" "2022-03-01"]
    = Ok st /\
    map fst (rows st) = [KStr "2022-02-28"] /\
    NoDup (map fst (rows st)) /\
    List.length (sent st) = 2%nat.
Proof.
  eexists.
  assert (Hrun : extract_run SampleService.batchGet 42
                   [mkRange "2022-02-28" "2022-02-28";
                    mkRange "2022-02-28" "2022-03-01"] = Ok _)
    by (vm_compute; reflexivity).
  destruct (X15_extract_keys SampleService.batchGet 42 _ _ Hrun)
    as (N & _ & _ & S').
  split; [exact Hrun|]. split; [reflexivity|]. split; [exact N | exact S'].
Defined.

(** ** The data path of [migrate] *)

(** X16. When the date range holds at least one day and the service
    answers every day with a list of rows, the data path of [migrate]
    ends with an exception: [__migrate_transform] cannot process the
    dict [__migrate_extract] hands over. *)
Theorem X16_migrate_raises_on_lists (strptime : string -> option Z)
    (strftime : Z -> string) (batchGet : request -> result val)
    (uuid4 : nat -> N) (start_date end_date : string) (table : Z) (s e : Z) :
  strptime start_date = Some s ->
  strptime end_date = Some e ->
  s <= e ->
  (forall d, s <= d <= e ->
     exists l, day_rows batchGet table (strftime d) = Ok (VList l)) ->
  exists ex,
    migrate_data strptime strftime batchGet uuid4 start_date end_date table
    = Raise ex.
Proof.
  intros Hs He Hle Hok. unfold migrate_data.
  rewrite (date_ranges_days strptime strftime _ _ _ _ Hs He). simpl.
  set (n := range (e - s + 1)).
  assert (Hn : Z.of_nat n = e - s + 1) by (unfold n, range; lia).
  destruct (extract_loop batchGet table (map strftime (upto s n)))
    with (st0 := mkFetched [] []) as (st & Hrun & _ & Hin & _).
  { intros k Hk. apply in_map_iff in Hk. destruct Hk as [d [<- Hd]].
    apply upto_In_inv in Hd. destruct (Hok d) as [l Hl]; [lia | eauto]. }
  rewrite map_map in Hrun.
  unfold __migrate_extract, extract_run. rewrite Hrun. simpl.
  destruct (Hok s) as [l Hl]; [lia|].
  assert (Hs_in : In (strftime s) (map strftime (upto s n)))
    by (apply in_map, upto_In; lia).
  specialize (Hin _ Hs_in). rewrite Hl in Hin.
  destruct (lookup (KStr (strftime s)) (rows st)) as [v|] eqn:Hlook;
    simpl in Hin; [|discriminate Hin].
  injection Hin as ->.
  apply list_day_stops_run with (day := KStr (strftime s)) (l := l).
  now apply lookup_In.
Qed.

Lemma X16_migrate_raises_on_lists_witness :
  exists ex,
    migrate_data Calendar.strptime Calendar.strftime SampleService.batchGet
      Sample.uuid4 "2022-02-27" "2022-03-02" 42
    = Raise ex.
Proof.
  apply (X16_migrate_raises_on_lists Calendar.strptime Calendar.strftime
           SampleService.batchGet Sample.uuid4
           "2022-02-27" "2022-03-02" 42 19050 19053).
  - vm_compute; reflexivity.
  - vm_compute; reflexivity.
  - lia.
  - intros d _. eexists. reflexivity.
Defined.

(** X17. When the end date is before the start date, the data path of
    [migrate] sends no request, creates no record and returns the single
    [setval] string with both counters at 1. *)
Theorem X17_migrate_on_inverted_dates (strptime : string -> option Z)
    (strftime : Z -> string) (batchGet : request -> result val)
    (uuid4 : nat -> N) (start_date end_date : string) (table : Z) (s e : Z) :
  strptime start_date = Some s ->
  strptime end_date = Some e ->
  e < s ->
  migrate_data strptime strftime batchGet uuid4 start_date end_date table
  = Ok [EStr (setval_statements 1 1)] /\
  (exists date_ranges st,
     _migrate_date_ranges strptime strftime start_date end_date = Ok date_ranges /\
     extract_run batchGet table date_ranges = Ok st /\ sent st = []).
Proof.
  intros Hs He Hlt. unfold migrate_data.
  rewrite (date_ranges_empty strptime strftime _ _ _ _ Hs He Hlt).
  split; [reflexivity|].
  exists [], (mkFetched [] []). auto.
Qed.

Lemma X17_migrate_on_inverted_dates_witness :
  migrate_data Calendar.strptime Calendar.strftime SampleService.batchGet
    Sample.uuid4 "2022-03-02" "2022-02-27" 42
  = Ok [EStr (setval_statements 1 1)].
Proof.
  apply (X17_migrate_on_inverted_dates Calendar.strptime Calendar.strftime
           SampleService.batchGet Sample.uuid4
           "2022-03-02" "2022-02-27" 42 19053 19050);
    [vm_compute; reflexivity | vm_compute; reflexivity | lia].
Defined.

(** ** The paging loop of [extract] *)

Lemma extend_rows_page (acc : list val) (response : val) (p : list val)
    (next : option val) :
  page response = Ok (p, next) -> extend_rows acc response = Ok (acc ++ p).
Proof.
  unfold page, extend_rows.
  destruct (response_rows response) as [r|]; simpl; [|discriminate].
  destruct (iter r) as [items|]; simpl; [|discriminate].
  destruct (first_report response) as [report|]; simpl; [|discriminate].
  destruct (contains report "nextPageToken") as [[|]|]; simpl;
    [ destruct (getitem_str report "nextPageToken"); simpl; [|discriminate]
    | | discriminate ];
    intro H; injection H as <- _; reflexivity.
Qed.

Lemma next_page_last (batchGet : report_request -> result val) (st : paging)
    (p : list val) :
  page (response st) = Ok (p, None) -> next_page batchGet st = Ok None.
Proof.
  unfold page, next_page.
  destruct (extend_rows [] (response st)); simpl; [|discriminate].
  destruct (first_report (response st)) as [report|]; simpl; [|discriminate].
  destruct (contains report "nextPageToken") as [[|]|]; simpl;
    [ destruct (getitem_str report "nextPageToken"); simpl; discriminate
    | reflexivity | discriminate ].
Qed.

Lemma next_page_more (batchGet : report_request -> result val) (st : paging)
    (p : list val) (token : val) :
  page (response st) = Ok (p, Some token) ->
  next_page batchGet st
  = bind (batchGet (set_token (body st) token)) (fun response' =>
      bind (extend_rows (report_rows st) response') (fun rows' =>
        Ok (Some (mkPaging (set_token (body st) token) response' rows')))).
Proof.
  unfold page, next_page.
  destruct (extend_rows [] (response st)); simpl; [|discriminate].
  destruct (first_report (response st)) as [report|]; simpl; [|discriminate].
  destruct (contains report "nextPageToken") as [[|]|]; simpl;
    [ destruct (getitem_str report "nextPageToken"); simpl; [|discriminate]
    | discriminate | discriminate ].
  intro H. injection H as _ <-. reflexivity.
Qed.

Lemma while_pages_serves (batchGet : report_request -> result val)
    (pages : list (list val)) :
  forall (fuel : nat) (b : report_request) (response : val) (acc p : list val)
         (next : option val),
  page response = Ok (p, next) ->
  match next with
  | None => pages = []
  | Some token => pages <> [] /\ serves batchGet (set_token b token) pages
  end ->
  (List.length pages < fuel)%nat ->
  while_pages batchGet fuel (mkPaging b response acc)
  = Some (Ok (acc ++ List.concat pages)).
Proof.
  induction pages as [|q pages IH]; intros fuel b response acc p next Hp Hn Hf;
    (destruct fuel as [|fuel]; [lia|]); simpl.
  - destruct next as [token|]; [destruct Hn as [Hn _]; now elim Hn|].
    rewrite (next_page_last batchGet _ p) by exact Hp.
    now rewrite app_nil_r.
  - destruct next as [token|]; [|discriminate Hn].
    destruct Hn as [_ (response' & next' & Hget & Hpage & Hrest)].
    rewrite (next_page_more batchGet _ p token) by exact Hp. simpl.
    rewrite Hget. simpl.
    rewrite (extend_rows_page acc _ _ _ Hpage). simpl.
    rewrite (IH fuel _ response' (acc ++ q) q next' Hpage Hrest) by (simpl in Hf; lia).
    now rewrite <- app_assoc.
Qed.

(** X18. When the service answers the request of [extract] with a first
    page and each page token with the next page, up to a page without
    token, the loop ends and the rows written are those of every page in
    the order served; as many loop tests as there are pages suffice. *)
Theorem X18_extract_joins_the_pages (batchGet : report_request -> result val)
    (config : Config.t) (pages : list (list val)) (fuel : nat) :
  serves batchGet (extract_body config) pages ->
  (List.length pages <= fuel)%nat ->
  extract_rows batchGet fuel config = Some (Ok (List.concat pages)).
Proof.
  intros Hserves Hfuel. destruct pages as [|p pages]; [contradiction|].
  destruct Hserves as (response & next & Hget & Hpage & Hrest).
  unfold extract_rows. rewrite Hget.
  rewrite (extend_rows_page [] _ _ _ Hpage). simpl.
  apply (while_pages_serves batchGet pages fuel _ response p p next Hpage Hrest).
  simpl in Hfuel. lia.
Qed.

Lemma X18_extract_joins_the_pages_witness :
  extract_rows SamplePages.batchGet 2 SamplePages.config
  = Some (Ok (List.concat [[Sample.api_row 4 1; Sample.api_row 2 2];
                           [Sample.api_row 7 3]])).
Proof.
  apply (X18_extract_joins_the_pages SamplePages.batchGet SamplePages.config
           [[Sample.api_row 4 1; Sample.api_row 2 2]; [Sample.api_row 7 3]] 2).
  - simpl. eexists. eexists.
    split; [reflexivity|]. split; [vm_compute; reflexivity|].
    split; [discriminate|].
    eexists. eexists.
    split; [reflexivity|]. split; [vm_compute; reflexivity|]. reflexivity.
  - simpl. lia.
Defined.

Lemma while_pages_endless (batchGet : report_request -> result val) :
  (forall b, exists response items token,
     batchGet b = Ok response /\ page response = Ok (items, Some token)) ->
  forall fuel st items token,
    page (response st) = Ok (items, Some token) ->
    while_pages batchGet fuel st = None.
Proof.
  intros Hserv fuel. induction fuel as [|fuel IH]; intros st items token Hp;
    simpl; [reflexivity|].
  rewrite (next_page_more batchGet _ items token) by exact Hp.
  destruct (Hserv (set_token (body st) token))
    as (response' & items' & token' & Hget & Hpage).
  rewrite Hget. simpl.
  rewrite (extend_rows_page _ _ _ _ Hpage). simpl.
  apply (IH _ items' token'). exact Hpage.
Qed.

(** X19. When every answer of the service carries a [nextPageToken], the
    loop of [extract] never ends: no number of loop tests brings a
    result, and nothing is written. *)
Theorem X19_extract_loops_on_endless_tokens
    (batchGet : report_request -> result val) (config : Config.t) (fuel : nat) :
  (forall b, exists response items token,
     batchGet b = Ok response /\ page response = Ok (items, Some token)) ->
  extract_rows batchGet fuel config = None.
Proof.
  intro Hserv. unfold extract_rows.
  destruct (Hserv (extract_body config))
    as (response & items & token & Hget & Hpage).
  rewrite Hget. rewrite (extend_rows_page [] _ _ _ Hpage). simpl.
  apply (while_pages_endless batchGet Hserv fuel _ items token). exact Hpage.
Qed.

Lemma X19_extract_loops_on_endless_tokens_witness :
  extract_rows SamplePages.endless 1000 SamplePages.config = None.
Proof.
  apply (X19_extract_loops_on_endless_tokens SamplePages.endless
           SamplePages.config 1000).
  intro b. eexists. eexists. eexists.
  split; [reflexivity | vm_compute; reflexivity].
Defined.

(** ** [OutputFormat.file_suffix] *)

(** X20. [file_suffix] finds a suffix for each of the three formats (no
    KeyError), and distinct formats have distinct suffixes. *)
Theorem X20_file_suffix (f g : OutputFormat) :
  (exists suffix, file_suffix f = Ok suffix) /\
  (file_suffix f = file_suffix g -> f = g).
Proof.
  split.
  - destruct f; eexists; reflexivity.
  - destruct f, g; simpl; intro H; try reflexivity; discriminate H.
Qed.
